(** * Lead scoring and candidate matching (ai-service/core)

    A shallow embedding of the rule-based lead scorer
    ([core/lead_scorer.py]) and of the candidate recommendation pipeline
    ([core/recommender.py]), with the properties the specification states
    about them.

    Conventions of the embedding:
    - Python [str] is a [string] of UTF-8 bytes; substring tests on the
      bytes agree with substring tests on the code points.
    - Python numbers that are [float] in the source are rationals ([Q])
      in the modules of the scorers: every sum, product and comparison
      there is taken exactly. That is enough for the tiers, ranges and
      orders stated below; what depends on the last digit of a double is
      stated over [Binary64], which rounds every operation as Python
      does.
    - A value read out of a request dictionary is a [pyval]; an operation
      applied to a value of the wrong type raises, and raising is a
      [result] that is threaded through the callers up to the [try]
      that catches it. *)

From Stdlib Require Import ZArith QArith Qround String Ascii List Bool Lia.
From Stdlib Require Import DecimalString Lqa Sorted Permutation SpecFloat.
From stdpp Require Import base option gmap strings.

Import ListNotations.
Local Open Scope string_scope.
Local Open Scope Z_scope.

(** ** Python values, exceptions and built-ins *)

Inductive pyval : Type :=
  | PyNone
  | PyStr (s : string)
  | PyInt (n : Z).

Inductive exn : Type :=
  | AttributeError
  | TypeError.

Inductive result (A : Type) : Type :=
  | Ok (a : A)
  | Raise (e : exn).

Arguments Ok {A} a.
Arguments Raise {A} e.

Definition bind {A B : Type} (r : result A) (f : A -> result B) : result B :=
  match r with
  | Ok a => f a
  | Raise e => Raise e
  end.

Notation "'let!' x ':=' r 'in' k" := (bind r (fun x => k))
  (at level 10, x name, r at level 100, k at level 200, only parsing).

(** [try: r except: d] *)
Definition try_except {A : Type} (r : result A) (handler : exn -> A) : A :=
  match r with
  | Ok a => a
  | Raise e => handler e
  end.

(** The two library functions the scorers call on text. [lower] is
    [str.lower] and [re_search pattern text] tells whether
    [re.search(pattern, text)] finds a match. *)
Class PyText : Type := {
  lower : string -> string;
  re_search : string -> string -> bool
}.

(** [str.lower] on ASCII text: the letters [A]..[Z] move down, every
    other byte stays. *)
Definition lower_char (c : ascii) : ascii :=
  let n := nat_of_ascii c in
  if ((65 <=? n) && (n <=? 90))%nat then ascii_of_nat (n + 32) else c.

Fixpoint ascii_lower (s : string) : string :=
  match s with
  | EmptyString => EmptyString
  | String c rest => String (lower_char c) (ascii_lower rest)
  end.

(** The library functions on ASCII text. Each pattern [score_lead]
    searches for needs a letter outside ASCII, so none of them matches
    there. *)
Definition ascii_text : PyText :=
  {| lower := ascii_lower; re_search := fun _ _ => false |}.

(** [needle in hay] on strings. *)
Fixpoint contains (needle hay : string) : bool :=
  if String.prefix needle hay then true
  else match hay with
       | EmptyString => false
       | String _ rest => contains needle rest
       end.

(** [s.replace(' ', '_')] *)
Fixpoint replace_space (s : string) : string :=
  match s with
  | EmptyString => EmptyString
  | String c rest =>
      String (if Ascii.eqb c " "%char then "_"%char else c) (replace_space rest)
  end.

(** [dict.get(key, default)] for a key that may be absent. *)
Definition get_or {A : Type} (field : option A) (default : A) : A :=
  match field with
  | Some v => v
  | None => default
  end.

(** [v.lower()]: only a [str] has the method. *)
Definition py_lower `{PyText} (v : pyval) : result string :=
  match v with
  | PyStr s => Ok (lower s)
  | _ => Raise AttributeError
  end.

(** [v > n] for an integer literal [n]. *)
Definition py_gt (v : pyval) (n : Z) : result bool :=
  match v with
  | PyInt m => Ok (n <? m)
  | _ => Raise TypeError
  end.

(** [v == s] for a string literal [s]. *)
Definition py_eq_str (v : pyval) (s : string) : bool :=
  match v with
  | PyStr t => String.eqb t s
  | _ => false
  end.

(** Truth value of [v] in a condition. *)
Definition truthy (v : pyval) : bool :=
  match v with
  | PyNone => false
  | PyStr s => negb (String.eqb s "")
  | PyInt n => negb (n =? 0)
  end.

(** [l.append(x)] *)
Definition append {A : Type} (l : list A) (x : A) : list A := (l ++ [x])%list.

(** [str(n)] for an integer. *)
Definition str_of_int (n : Z) : string := NilZero.string_of_int (Z.to_int n).

(** [l[:k]]: a negative [k] counts from the end of the list. *)
Definition slice_to {A : Type} (l : list A) (k : Z) : list A :=
  if k <? 0 then firstn (Z.to_nat (Z.of_nat (List.length l) + k)) l
  else firstn (Z.to_nat k) l.

(** [round(x, 2)]: to the nearest hundredth, ties to the even one. *)
Definition round_half_even (x : Q) : Z :=
  let f := Qfloor x in
  match Qcompare (x - inject_Z f) (1 # 2) with
  | Lt => f
  | Gt => f + 1
  | Eq => if Z.even f then f else f + 1
  end.

Definition round2 (x : Q) : Q := inject_Z (round_half_even (x * 100)) / 100.

(** [min(a, b)] and [max(a, b)] return the first argument unless the
    second is strictly smaller (larger). *)
Definition py_min (a b : Q) : Q := if Qle_bool a b then a else b.
Definition py_max (a b : Q) : Q := if Qle_bool b a then a else b.

(** ** lead_scorer.py *)

Module LeadScorer.

(** [_determine_lead_quality] *)
Definition _determine_lead_quality (score : Q) : string :=
  if Qle_bool 80 score then "hot"
  else if Qle_bool 60 score then "warm"
  else if Qle_bool 40 score then "medium"
  else if Qle_bool 20 score then "cold"
  else "very_cold".

Definition enterprise_keywords : list string :=
  [ "báo giá doanh nghiệp"; "hợp tác"; "số lượng lớn";
    "enterprise"; "corporate"; "bulk training"; "team training";
    "partnership"; "collaboration"; "enterprise solution" ].

Definition positive_keywords : list string :=
  [ "mua"; "đăng ký"; "quan tâm"; "muốn học"; "tham gia";
    "chi phí"; "giá cả"; "pricing"; "cost"; "interested";
    "enroll"; "register"; "sign up" ].

Definition negative_keywords : list string :=
  [ "không hài lòng"; "thất vọng"; "tệ"; "kém"; "không tốt";
    "bực bội"; "tức giận"; "khó chịu"; "phản đối";
    "disappointed"; "frustrated"; "angry"; "upset"; "terrible";
    "awful"; "horrible"; "worst"; "hate" ].

Definition negative_patterns : list string :=
  [ "không\s+\w*\s*(tốt|hay|ok)";
    "quá\s+(đắt|cao)";
    "(rất|quá)\s+(tệ|kém)" ].

(** The three keyword loops of [_analyze_content_nlp], each threading the
    variable it updates; the first and the third leave at the first hit. *)
Fixpoint scan_enterprise (keywords : list string) (content_lower : string)
    (score : Z) : Z :=
  match keywords with
  | [] => score
  | keyword :: rest =>
      if contains keyword content_lower then score + 30
      else scan_enterprise rest content_lower score
  end.

Fixpoint scan_positive (keywords : list string) (content_lower : string)
    (score : Z) : Z :=
  match keywords with
  | [] => score
  | keyword :: rest =>
      scan_positive rest content_lower
        (if contains keyword content_lower then score + 5 else score)
  end.

Fixpoint scan_negative (keywords : list string) (content_lower : string)
    (negative_sentiment : bool) : bool :=
  match keywords with
  | [] => negative_sentiment
  | keyword :: rest =>
      if contains keyword content_lower then true
      else scan_negative rest content_lower negative_sentiment
  end.

Section Scorer.
Context `{PyText}.

Fixpoint scan_patterns (patterns : list string) (content_lower : string)
    (negative_sentiment : bool) : bool :=
  match patterns with
  | [] => negative_sentiment
  | pattern :: rest =>
      if re_search pattern content_lower then true
      else scan_patterns rest content_lower negative_sentiment
  end.

(** The body of the [try] of [_analyze_content_nlp]. *)
Definition analyze_content_body (content : pyval) : result (Z * bool) :=
  let! content_lower := py_lower content in
  let score := 0 in
  let negative_sentiment := false in
  let score := scan_enterprise enterprise_keywords content_lower score in
  let score := scan_positive positive_keywords content_lower score in
  let negative_sentiment :=
    scan_negative negative_keywords content_lower negative_sentiment in
  let negative_sentiment :=
    if negb negative_sentiment
    then scan_patterns negative_patterns content_lower negative_sentiment
    else negative_sentiment in
  let score := Z.max 0 score in
  Ok (score, negative_sentiment).

(** [_analyze_content_nlp] *)
Definition _analyze_content_nlp (content : pyval) : Z * bool :=
  try_except (analyze_content_body content) (fun _ => (0, false)).

(** One interaction of the request: each key may be absent. *)
Record interaction : Type := {
  i_type : option pyval;
  i_content : option pyval;
  i_duration : option pyval;
  i_page_url : option pyval
}.

(** The three locals the loop of [score_lead] updates. *)
Record tally : Type := {
  total_score : Z;
  needs_human_intervention : bool;
  interaction_details : list string
}.

(** The body of the [for] loop of [score_lead]. *)
Definition score_interaction (st : tally) (i : interaction) : result tally :=
  let interaction_score := 0 in
  let details := interaction_details st in
  let needs := needs_human_intervention st in
  let interaction_type := get_or (i_type i) (PyStr "") in
  let content := get_or (i_content i) (PyStr "") in
  let duration := get_or (i_duration i) (PyInt 0) in
  let page_url := get_or (i_page_url i) (PyStr "") in
  (* Rule 1 *)
  let! url := py_lower page_url in
  let rule1 := contains "pricing" url || contains "gia" url in
  let interaction_score :=
    if rule1 then interaction_score + 10 else interaction_score in
  let details :=
    if rule1 then append details "Visited pricing page (+10)" else details in
  (* Rule 2 *)
  let! about_python :=
    if contains "python" url then Ok true
    else (let! text := py_lower content in Ok (contains "python" text)) in
  let! rule2 := if about_python then py_gt duration 180 else Ok false in
  let interaction_score :=
    if rule2 then interaction_score + 15 else interaction_score in
  let details :=
    if rule2 then append details "Viewed Python course >3min (+15)"
    else details in
  (* Rule 3 *)
  let! rule3 :=
    if py_eq_str interaction_type "form_submission" then Ok true
    else (let! kind := py_lower interaction_type in
          Ok (contains "contact" kind)) in
  let interaction_score :=
    if rule3 then interaction_score + 20 else interaction_score in
  let details :=
    if rule3 then append details "Submitted contact form (+20)" else details in
  (* Rule 4 *)
  let '(interaction_score, needs, details) :=
    if (py_eq_str interaction_type "chat" ||
        py_eq_str interaction_type "message") && truthy content
    then
      let '(nlp_score, sentiment_flag) := _analyze_content_nlp content in
      let interaction_score := interaction_score + nlp_score in
      let needs := if sentiment_flag then true else needs in
      let details :=
        if sentiment_flag
        then append details
               "Negative sentiment detected - needs human intervention"
        else details in
      let details :=
        if 0 <? nlp_score
        then append details ("NLP analysis (+" ++ str_of_int nlp_score ++ ")")
        else details in
      (interaction_score, needs, details)
    else (interaction_score, needs, details) in
  Ok {| total_score := total_score st + interaction_score;
        needs_human_intervention := needs;
        interaction_details := details |}.

(** The [for] loop: it stops at the first interaction that raises. *)
Fixpoint score_interactions (st : tally) (interaction_data : list interaction)
    : result tally :=
  match interaction_data with
  | [] => Ok st
  | i :: rest =>
      let! st' := score_interaction st i in score_interactions st' rest
  end.

(** The dictionary [score_lead] returns; [total_interactions] is there on
    the normal path only and [error] in the handler only. The time stamp
    [scored_at] is left out. *)
Record score_result : Type := {
  lead_score : Z;
  quality : string;
  escalate : bool;
  trace : list string;
  total_interactions : option nat;
  error : option exn
}.

(** The locals as [score_lead] sets them before the loop. *)
Definition start : tally :=
  {| total_score := 0;
     needs_human_intervention := false;
     interaction_details := [] |}.

(** [score_lead] *)
Definition score_lead (interaction_data : list interaction) : score_result :=
  try_except
    (let! st := score_interactions start interaction_data in
     let quality := _determine_lead_quality (inject_Z (total_score st)) in
     Ok {| lead_score := total_score st;
           quality := quality;
           escalate := needs_human_intervention st;
           trace := interaction_details st;
           total_interactions := Some (List.length interaction_data);
           error := None |})
    (fun e =>
       {| lead_score := 0;
          quality := "unqualified";
          escalate := true;
          trace := [];
          total_interactions := None;
          error := Some e |}).

End Scorer.

(** The blend of [calculate_lead_score]: [final_score] is the local of
    that name after the clamp, [reported_lead_score] the ['lead_score']
    entry of the result. Sums and products are exact here;
    [Binary64.reported_lead_score] has them in doubles. *)
Definition final_score (ml_score rule_based_score : Q) : Q :=
  let final_score :=
    ((ml_score * 0.7 + rule_based_score * 0.3) * 100)%Q in
  py_max 0 (py_min 100 final_score).

Definition reported_lead_score (ml_score rule_based_score : Q) : Q :=
  round2 (final_score ml_score rule_based_score).

End LeadScorer.

(** ** recommender.py *)

Module Recommender.

Local Open Scope Q_scope.

(** [np.mean] of a list of numbers. *)
Definition mean (l : list Q) : Q :=
  fold_right Qplus 0 l / inject_Z (Z.of_nat (List.length l)).

(** The feature dictionary of one candidate, as far as the scores below
    read it; every entry is read with [get] and a default. *)
Record features : Type := {
  avg_competency_score : option Q;
  days_since_enrollment : option Z;
  competency_vector : option (gmap string Q);
  avg_task_score : option Q;
  course_completion_rate : option Q;
  task_completion_rate : option Q;
  consistency_score : option Q;
  improvement_trend : option Q;
  learning_velocity : option Q;
  engagement_score : option Q;
  recent_activity : option Q
}.

(** [_get_proficiency_level] *)
Definition _get_proficiency_level (score : Q) : string :=
  if Qle_bool 90 score then "expert"
  else if Qle_bool 80 score then "advanced"
  else if Qle_bool 70 score then "intermediate"
  else if Qle_bool 60 score then "beginner"
  else "novice".

Record matched_skill : Type := {
  ms_skill : pyval;
  ms_score : Q;
  ms_proficiency : string
}.

(** The dictionary [calculate_skill_match_score] returns; the two rates
    are absent from the one returned for an empty requirement list. *)
Record skill_match : Type := {
  sm_score : Q;
  sm_match_rate : option Q;
  sm_avg_skill_score : option Q;
  sm_matched_skills : list matched_skill;
  sm_missing_skills : list pyval
}.

(** The three lists the loop of [calculate_skill_match_score] fills. *)
Record skill_tally : Type := {
  matched_skills : list matched_skill;
  missing_skills : list pyval;
  skill_scores : list Q
}.

Section SkillMatch.
Context `{PyText}.

Definition normalize_skill (skill : pyval) : result string :=
  let! lowered := py_lower skill in Ok (replace_space lowered).

(** The loop over the required skills. *)
Fixpoint match_skills (candidate_competencies : gmap string Q)
    (required_skills : list pyval) (st : skill_tally) : result skill_tally :=
  match required_skills with
  | [] => Ok st
  | skill :: rest =>
      let! skill_normalized := normalize_skill skill in
      match candidate_competencies !! skill_normalized with
      | Some score =>
          match_skills candidate_competencies rest
            {| matched_skills :=
                 append (matched_skills st)
                   {| ms_skill := skill;
                      ms_score := score;
                      ms_proficiency := _get_proficiency_level score |};
               missing_skills := missing_skills st;
               skill_scores := append (skill_scores st) score |}
      | None =>
          match_skills candidate_competencies rest
            {| matched_skills := matched_skills st;
               missing_skills := append (missing_skills st) skill;
               skill_scores := skill_scores st |}
      end
  end.

(** [calculate_skill_match_score]. After the early return the list is
    not empty, so the second test of [required_skills] always holds.
    Sums and products are exact here;
    [Binary64.calculate_skill_match_score] has them in doubles. *)
Definition calculate_skill_match_score (candidate_competencies : gmap string Q)
    (required_skills : list pyval) : result skill_match :=
  match required_skills with
  | [] =>
      Ok {| sm_score := 0;
            sm_match_rate := None;
            sm_avg_skill_score := None;
            sm_matched_skills := [];
            sm_missing_skills := [] |}
  | _ :: _ =>
      let! st :=
        match_skills candidate_competencies required_skills
          {| matched_skills := []; missing_skills := []; skill_scores := [] |}
      in
      let match_rate :=
        inject_Z (Z.of_nat (List.length (matched_skills st))) /
        inject_Z (Z.of_nat (List.length required_skills)) in
      let avg_skill_score :=
        match skill_scores st with
        | [] => 0
        | _ :: _ => mean (skill_scores st)
        end in
      let overall_score :=
        (match_rate * 0.6 + (avg_skill_score / 100) * 0.4) * 100 in
      Ok {| sm_score := round2 overall_score;
            sm_match_rate := Some (round2 (match_rate * 100));
            sm_avg_skill_score := Some (round2 avg_skill_score);
            sm_matched_skills := matched_skills st;
            sm_missing_skills := missing_skills st |}
  end.

End SkillMatch.

Record experience_match : Type := {
  em_score : Z;
  em_candidate_level : string;
  em_required_level : string;
  em_match_quality : string
}.

Definition exp_mapping : gmap string Z :=
  {[ "entry_level" := 1%Z; "junior" := 2%Z; "mid_level" := 3%Z;
     "senior" := 4%Z; "executive" := 5%Z ]}.

(** [calculate_experience_match] *)
Definition calculate_experience_match (candidate_features : features)
    (required_experience : string) : experience_match :=
  let candidate_exp_score :=
    get_or (avg_competency_score candidate_features) 0 in
  let days_enrolled :=
    get_or (days_since_enrollment candidate_features) 0%Z in
  let candidate_level :=
    if Qle_bool 85 candidate_exp_score && (365 <=? days_enrolled)%Z
    then "senior"
    else if Qle_bool 70 candidate_exp_score && (180 <=? days_enrolled)%Z
    then "mid_level"
    else if Qle_bool 60 candidate_exp_score then "junior"
    else "entry_level" in
  let candidate_score := get_or (exp_mapping !! candidate_level) 2%Z in
  let required_score := get_or (exp_mapping !! required_experience) 3%Z in
  let '(match_score, match_quality) :=
    if (required_score <=? candidate_score)%Z then (100%Z, "excellent")
    else if (candidate_score =? required_score - 1)%Z then (75%Z, "good")
    else if (candidate_score =? required_score - 2)%Z then (50%Z, "fair")
    else (25%Z, "poor") in
  {| em_score := match_score;
     em_candidate_level := candidate_level;
     em_required_level := required_experience;
     em_match_quality := match_quality |}.

(** [calculate_performance_score] *)
Definition calculate_performance_score (candidate_features : features) : Q :=
  let components :=
    [ get_or (avg_task_score candidate_features) 0 / 100 * 0.4;
      get_or (course_completion_rate candidate_features) 0 * 0.3;
      get_or (task_completion_rate candidate_features) 0 * 0.2;
      get_or (consistency_score candidate_features) 0 * 0.1 ] in
  fold_left Qplus components 0 * 100.

(** [calculate_learning_potential] *)
Definition calculate_learning_potential (candidate_features : features) : Q :=
  let components :=
    [ get_or (improvement_trend candidate_features) 0 * 0.4;
      get_or (learning_velocity candidate_features) 0 / 10 * 0.3;
      get_or (engagement_score candidate_features) 0 * 0.2;
      get_or (recent_activity candidate_features) 0 * 0.1 ] in
  fold_left Qplus components 0 * 100.

(** [calculate_cultural_fit]; the company culture argument is not read. *)
Definition calculate_cultural_fit (candidate_features : features) : Q :=
  let base_score := 70 in
  let engagement_bonus :=
    get_or (engagement_score candidate_features) 0 * 10 in
  let consistency_bonus :=
    get_or (consistency_score candidate_features) 0 * 10 in
  let cultural_fit_score := base_score + engagement_bonus + consistency_bonus in
  py_min cultural_fit_score 100.

Definition weight_skill_match : Q := 0.35.
Definition weight_experience_match : Q := 0.25.
Definition weight_performance_score : Q := 0.20.
Definition weight_learning_potential : Q := 0.15.
Definition weight_cultural_fit : Q := 0.05.

(** One entry of the list [recommend_candidates] returns. The name and
    the free-text reasons are left out: no score depends on them. *)
Record recommendation : Type := {
  candidate_id : pyval;
  overall_score : Q;
  rec_skill_match : skill_match;
  rec_experience_match : experience_match;
  performance_score : Q;
  learning_potential : Q;
  cultural_fit : Q;
  areas_for_development : list pyval;
  strengths : list pyval
}.

(** The parsed requirements of a job description: the skill lists by
    category, in the order of the dictionary, and the experience level. *)
Record parsed_jd : Type := {
  jd_skills : option (list (string * list pyval));
  jd_experience_level : option (option string)
}.

Record job_description : Type := {
  parsed_requirements : option parsed_jd;
  description_text : option string;
  title : option string
}.

(** What [recommend_candidates] calls outside this module: the reading of
    a candidate record ([extract_candidate_features], which goes through
    numpy and the clock) and the job description parser. *)
Class CandidateData (candidate : Type) : Type := {
  get_id : candidate -> pyval;
  extract_candidate_features : candidate -> result features;
  parse_job_description : string -> string -> result parsed_jd
}.

(** [recommendations.sort(key=lambda x: x['overall_score'], reverse=True)]:
    descending, and entries of equal score stay in the order they have. *)
Fixpoint insert_desc (r : recommendation) (sorted : list recommendation)
    : list recommendation :=
  match sorted with
  | [] => [r]
  | r' :: rest =>
      if Qle_bool (overall_score r') (overall_score r)
      then r :: r' :: rest
      else r' :: insert_desc r rest
  end.

Definition sort_desc (l : list recommendation) : list recommendation :=
  fold_right insert_desc [] l.

Section Recommend.
Context `{PyText} {candidate : Type} `{CandidateData candidate}.

(** The body of the inner [try] of [recommend_candidates]. *)
Definition score_candidate (required_skills : list pyval)
    (required_experience : string) (c : candidate) : result recommendation :=
  let! candidate_features := extract_candidate_features c in
  let! skill_match :=
    calculate_skill_match_score
      (get_or (competency_vector candidate_features) ∅) required_skills in
  let experience_match :=
    calculate_experience_match candidate_features required_experience in
  let performance_score := calculate_performance_score candidate_features in
  let learning_potential := calculate_learning_potential candidate_features in
  let cultural_fit := calculate_cultural_fit candidate_features in
  let overall_score :=
    sm_score skill_match * weight_skill_match +
    inject_Z (em_score experience_match) * weight_experience_match +
    performance_score * weight_performance_score +
    learning_potential * weight_learning_potential +
    cultural_fit * weight_cultural_fit in
  Ok {| candidate_id := get_id c;
        overall_score := round2 overall_score;
        rec_skill_match := skill_match;
        rec_experience_match := experience_match;
        performance_score := round2 performance_score;
        learning_potential := round2 learning_potential;
        cultural_fit := round2 cultural_fit;
        areas_for_development := sm_missing_skills skill_match;
        strengths :=
          map ms_skill
            (List.filter (fun m => Qle_bool 80 (ms_score m))
               (sm_matched_skills skill_match)) |}.

(** The loop over the candidates: one that raises is logged and left
    out, and the loop goes on. *)
Fixpoint collect (required_skills : list pyval) (required_experience : string)
    (recommendations : list recommendation) (candidates : list candidate)
    : list recommendation :=
  match candidates with
  | [] => recommendations
  | c :: rest =>
      collect required_skills required_experience
        (try_except
           (let! r := score_candidate required_skills required_experience c in
            Ok (append recommendations r))
           (fun _ => recommendations))
        rest
  end.

(** [recommend_candidates] *)
Definition recommend_candidates (jd : job_description)
    (candidates : list candidate) (top_k : Z) : list recommendation :=
  try_except
    (let! parsed :=
       match parsed_requirements jd with
       | None =>
           parse_job_description (get_or (description_text jd) "")
             (get_or (title jd) "")
       | Some parsed => Ok parsed
       end in
     let jd_skills := get_or (jd_skills parsed) [] in
     let required_skills := concat (map snd jd_skills) in
     let required_experience :=
       get_or (get_or (jd_experience_level parsed) None) "mid_level" in
     let recommendations :=
       collect required_skills required_experience [] candidates in
     let recommendations := sort_desc recommendations in
     Ok (slice_to recommendations top_k))
    (fun _ => []).

End Recommend.

(** Two shapes of candidate record, for examples: [Bare n] is the record
    [{'id': n}], in which every collection is absent, and [Broken n] is
    [{'id': n, 'enrollments': None}], on which the first [len] of
    [extract_candidate_features] raises [TypeError]. *)
Inductive sample_candidate : Type :=
  | Bare (n : Z)
  | Broken (n : Z).

Definition bare_features : features :=
  {| avg_competency_score := Some 0;
     days_since_enrollment := Some 0%Z;
     competency_vector := Some ∅;
     avg_task_score := Some 0;
     course_completion_rate := Some 0;
     task_completion_rate := Some 0;
     consistency_score := Some 0.5;
     improvement_trend := Some 0.5;
     learning_velocity := Some 0;
     engagement_score := Some 0;
     recent_activity := Some 0 |}.

Definition sample_data : CandidateData sample_candidate :=
  {| get_id := fun c => match c with Bare n | Broken n => PyInt n end;
     extract_candidate_features := fun c =>
       match c with
       | Bare _ => Ok bare_features
       | Broken _ => Raise TypeError
       end;
     parse_job_description := fun _ _ =>
       Ok {| jd_skills := None; jd_experience_level := None |} |}.

End Recommender.

(** ** The specification's side

    Definitions that follow the words of the specification, to be
    compared with the code above. *)

Module Spec.

Import LeadScorer.

(** The ordered tier enumeration of a score result. *)
Definition tiers : list string :=
  ["very_cold"; "cold"; "medium"; "warm"; "hot"].



(** How many keywords of a list occur in a text. *)
Definition hits (keywords : list string) (text : string) : nat :=
  List.length (List.filter (fun keyword => contains keyword text) keywords).

Definition any_hit (keywords : list string) (text : string) : bool :=
  existsb (fun keyword => contains keyword text) keywords.

(** The enterprise rule: thirty points, once. *)
Definition enterprise_points (text : string) : Z :=
  if any_hit enterprise_keywords text then 30 else 0.

(** The positive-intent rule: five points for each keyword found. *)
Definition positive_points (text : string) : Z :=
  5 * Z.of_nat (hits positive_keywords text).

Definition nlp_points (text : string) : Z :=
  enterprise_points text + positive_points text.

(** An interaction event of the data model: a type, free text, seconds
    and a page, each of which may be missing from the record. *)
Record event : Type := {
  e_type : option string;
  e_content : option string;
  e_duration : option Z;
  e_page_url : option string
}.

(** The request dictionary that carries an event. *)
Definition to_interaction (e : event) : interaction :=
  {| i_type := option_map PyStr (e_type e);
     i_content := option_map PyStr (e_content e);
     i_duration := option_map PyInt (e_duration e);
     i_page_url := option_map PyStr (e_page_url e) |}.

Definition kind (e : event) : string := get_or (e_type e) "".
Definition text (e : event) : string := get_or (e_content e) "".
Definition seconds (e : event) : Z := get_or (e_duration e) 0.
Definition page (e : event) : string := get_or (e_page_url e) "".

Section Rules.
Context `{PyText}.

(** Negative sentiment: a keyword or a pattern. *)
Definition negative_hit (text : string) : bool :=
  any_hit negative_keywords text ||
  existsb (fun pattern => re_search pattern text) negative_patterns.

(** The conditions of the rules, one per rule. *)
Definition pricing_page (e : event) : bool :=
  contains "pricing" (lower (page e)) || contains "gia" (lower (page e)).

Definition long_python_view (e : event) : bool :=
  (contains "python" (lower (page e)) || contains "python" (lower (text e)))
  && (180 <? seconds e).

Definition form_submitted (e : event) : bool :=
  String.eqb (kind e) "form_submission" || contains "contact" (lower (kind e)).

Definition is_message (e : event) : bool :=
  (String.eqb (kind e) "chat" || String.eqb (kind e) "message")
  && negb (String.eqb (text e) "").

Definition message_points (e : event) : Z :=
  if is_message e then nlp_points (lower (text e)) else 0.

Definition negative_message (e : event) : bool :=
  is_message e && negative_hit (lower (text e)).

(** What one event adds to the score, rule by rule. *)
Definition contribution (e : event) : Z :=
  (if pricing_page e then 10 else 0) +
  (if long_python_view e then 15 else 0) +
  (if form_submitted e then 20 else 0) +
  message_points e.

(** The lines one event adds to the trace, in the order of the rules. *)
Definition event_trace (e : event) : list string :=
  ((if pricing_page e then ["Visited pricing page (+10)"] else []) ++
   (if long_python_view e then ["Viewed Python course >3min (+15)"] else []) ++
   (if form_submitted e then ["Submitted contact form (+20)"] else []) ++
   (if negative_message e
    then ["Negative sentiment detected - needs human intervention"]
    else []) ++
   (if 0 <? message_points e
    then [("NLP analysis (+" ++ str_of_int (message_points e) ++ ")")%string]
    else []))%list.

Definition sum_contributions (events : list event) : Z :=
  fold_right (fun e acc => contribution e + acc) 0 events.

End Rules.

Import Recommender.

(** The ordered experience levels. *)
Inductive level : Type :=
  | EntryLevel
  | Junior
  | MidLevel
  | Senior
  | Executive.

Definition rank (l : level) : Z :=
  match l with
  | EntryLevel => 1
  | Junior => 2
  | MidLevel => 3
  | Senior => 4
  | Executive => 5
  end.

(** The bucket of a candidate, from the competency score and the tenure. *)
Definition candidate_bucket (f : features) : level :=
  let competency := get_or (avg_competency_score f) 0%Q in
  let tenure := get_or (days_since_enrollment f) 0 in
  if Qle_bool 85 competency && (365 <=? tenure) then Senior
  else if Qle_bool 70 competency && (180 <=? tenure) then MidLevel
  else if Qle_bool 60 competency then Junior
  else EntryLevel.

(** The bucket of a required level; one that is not recognized is mid. *)
Definition required_bucket (required : string) : level :=
  if String.eqb required "entry_level" then EntryLevel
  else if String.eqb required "junior" then Junior
  else if String.eqb required "mid_level" then MidLevel
  else if String.eqb required "senior" then Senior
  else if String.eqb required "executive" then Executive
  else MidLevel.

(** The step function of a bucket distance. *)
Definition step (distance : Z) : Z :=
  if distance =? 0 then 100
  else if distance =? 1 then 75
  else if distance =? 2 then 50
  else 25.

(** The experience match as a function of the absolute distance of the
    two buckets. *)
Definition experience_by_distance (f : features) (required : string) : Z :=
  step (Z.abs (rank (candidate_bucket f) - rank (required_bucket required))).

(** The experience match as a function of how far the candidate is
    below the required bucket, a candidate at or above it being at
    distance 0. *)
Definition experience_by_shortfall (f : features) (required : string) : Z :=
  step (Z.max 0 (rank (required_bucket required) - rank (candidate_bucket f))).

Section Skills.
Context `{PyText}.

(** The key under which a required skill is looked up. *)
Definition normalized (skill : string) : string :=
  replace_space (lower skill).

Definition present (vector : gmap string Q) (skill : string) : bool :=
  match vector !! normalized skill with
  | Some _ => true
  | None => false
  end.

(** The fraction of the required skills present in the vector. *)
Definition match_rate (vector : gmap string Q) (required : list string) : Q :=
  inject_Z (Z.of_nat (List.length (List.filter (present vector) required))) /
  inject_Z (Z.of_nat (List.length required)).

Definition matched_scores (vector : gmap string Q) (required : list string)
    : list Q :=
  omap (fun skill => vector !! normalized skill) required.

(** The mean score of the matched skills, 0 when none matched. *)
Definition avg_matched_score (vector : gmap string Q)
    (required : list string) : Q :=
  match matched_scores vector required with
  | [] => 0
  | _ :: _ => mean (matched_scores vector required)
  end.

(** The entries of the matched and of the missing list. *)
Definition matched_entries (vector : gmap string Q) (required : list string)
    : list matched_skill :=
  omap (fun skill =>
          match vector !! normalized skill with
          | Some score =>
              Some {| ms_skill := PyStr skill;
                      ms_score := score;
                      ms_proficiency := _get_proficiency_level score |}
          | None => None
          end) required.

Definition missing_entries (vector : gmap string Q) (required : list string)
    : list pyval :=
  map PyStr (List.filter (fun skill => negb (present vector skill)) required).

Definition skill_formula (vector : gmap string Q) (required : list string)
    : Q :=
  ((match_rate vector required * 0.6 +
    avg_matched_score vector required / 100 * 0.4) * 100)%Q.

End Skills.

Section Pool.
Context `{PyText} {candidate : Type} `{CandidateData candidate}.

(** The entries the candidates of a pool give, in the order of the
    pool: one for each candidate on which the body of the inner [try]
    does not raise. *)
Definition successes (required_skills : list pyval)
    (required_experience : string) (candidates : list candidate)
    : list recommendation :=
  flat_map
    (fun c =>
       match score_candidate required_skills required_experience c with
       | Ok r => [r]
       | Raise _ => []
       end) candidates.

End Pool.

End Spec.

(** ** Example inputs *)

Module Examples.

Import Recommender.

(** A candidate of competency 90 enrolled for 400 days. *)
Definition senior_features : features :=
  {| avg_competency_score := Some 90%Q;
     days_since_enrollment := Some 400;
     competency_vector := None;
     avg_task_score := None;
     course_completion_rate := None;
     task_completion_rate := None;
     consistency_score := None;
     improvement_trend := None;
     learning_velocity := None;
     engagement_score := None;
     recent_activity := None |}.

(** The competency vector [{"python": 90}] and the requirement
    [["python", "sql"]]. *)
Definition python_90 : gmap string Q := {[ "python" := 90%Q ]}.
Definition python_sql : list string := ["python"; "sql"].

(** The competency vector [{"a": 50}] against seven required skills. *)
Definition a_50 : gmap string Q := {[ "a" := 50%Q ]}.

(** A job description that comes parsed: two technical skills, junior. *)
Definition junior_job : job_description :=
  {| parsed_requirements :=
       Some {| jd_skills := Some [("technical", map PyStr python_sql)];
               jd_experience_level := Some (Some "junior") |};
     description_text := None;
     title := None |}.

(** A visit of the pricing page, four minutes on a Python page and a
    contact form. *)
Definition pricing_python_form : list Spec.event :=
  [ {| Spec.e_type := Some "page_visit";
       Spec.e_content := Some "";
       Spec.e_duration := Some 45;
       Spec.e_page_url := Some "/pricing" |};
    {| Spec.e_type := Some "page_visit";
       Spec.e_content := Some "Python advanced course details";
       Spec.e_duration := Some 240;
       Spec.e_page_url := Some "/courses/python-advanced" |};
    {| Spec.e_type := Some "form_submission";
       Spec.e_content := None;
       Spec.e_duration := None;
       Spec.e_page_url := Some "/contact" |} ].

(** A chat message that asks for an enterprise offer and complains. *)
Definition unhappy_enterprise_chat : list Spec.event :=
  [ {| Spec.e_type := Some "chat";
       Spec.e_content :=
         Some "Enterprise solution for our Corporate team? The pricing is terrible";
       Spec.e_duration := None;
       Spec.e_page_url := Some "/chat" |} ].

End Examples.

(** ** lead_scorer.py: the feature scorer *)

Module LeadFeatures.

Import LeadScorer.

Local Open Scope Q_scope.

#[global] Instance pyval_eq_dec : EqDecision pyval.
Proof. solve_decision. Defined.

(** [str(v)] *)
Definition py_str (v : pyval) : string :=
  match v with
  | PyNone => "None"
  | PyStr s => s
  | PyInt n => str_of_int n
  end.

(** One interaction of a lead record, as the feature functions read it:
    the type and the page of the metadata; each key may be absent. *)
Record page_metadata : Type := {
  m_page_url : option pyval
}.

Record activity : Type := {
  interaction_type : option pyval;
  metadata : option page_metadata
}.

(** [i.get('interaction_type')] *)
Definition type_of (i : activity) : pyval :=
  get_or (interaction_type i) PyNone.

(** [i.get('metadata', {}).get('page_url', '')] *)
Definition page_of (i : activity) : pyval :=
  get_or (m_page_url (get_or (metadata i) {| m_page_url := None |}))
    (PyStr "").

Definition has_type (name : string) (i : activity) : bool :=
  py_eq_str (type_of i) name.

(** [len(l)] as a number. *)
Definition len {A : Type} (l : list A) : Q :=
  inject_Z (Z.of_nat (List.length l)).


(** [_calculate_website_activity] *)
Definition _calculate_website_activity (interactions : list activity) : Q :=
  let website_interactions :=
    List.filter (has_type "view_page") interactions in
  match website_interactions with
  | [] => 0
  | _ :: _ =>
      let unique_pages := len (remove_dups (map page_of website_interactions)) in
      let total_visits := len website_interactions in
      py_min ((unique_pages * 0.6 + total_visits * 0.4) / 10) 1
  end.


Definition source_mapping : gmap string Z :=
  {[ "website" := 5%Z; "social_media" := 4%Z; "referral" := 5%Z;
     "email_campaign" := 3%Z; "paid_ads" := 3%Z; "organic_search" := 4%Z;
     "direct" := 2%Z; "unknown" := 1%Z ]}.

Definition premium_keywords : list string :=
  ["advanced"; "premium"; "professional"; "enterprise"].

Section Text.
Context `{PyText}.

(** [_encode_source] *)
Definition _encode_source (source : pyval) : result Z :=
  let! lowered := py_lower source in
  Ok (get_or (source_mapping !! lowered) 1%Z).

(** [_check_premium_course_interest]: the loop returns at the first
    course whose name holds a premium keyword. *)
Fixpoint _check_premium_course_interest (interested_courses : list pyval)
    : Z :=
  match interested_courses with
  | [] => 0%Z
  | course :: rest =>
      let course_name := lower (py_str course) in
      if existsb (fun keyword => contains keyword course_name) premium_keywords
      then 1%Z
      else _check_premium_course_interest rest
  end.

End Text.

(** The feature dictionary of a lead, as the scorer reads it. *)
Record lead_features : Type := {
  has_phone : option Z;
  source_encoded : option Z;
  total_interactions : option Z;
  email_engagement_score : option Q;
  website_activity_score : option Q;
  interaction_frequency : option Q;
  content_engagement_score : option Q;
  num_interested_courses : option Z
}.

(** [settings.LEAD_SCORE_WEIGHTS] *)
Record weights : Type := {
  w_email_engagement : Q;
  w_website_activity : Q;
  w_demographic_fit : Q;
  w_interaction_frequency : Q;
  w_content_engagement : Q
}.

Definition default_weights : weights :=
  {| w_email_engagement := 0.3;
     w_website_activity := 0.25;
     w_demographic_fit := 0.2;
     w_interaction_frequency := 0.15;
     w_content_engagement := 0.1 |}.

(** The demographic part of [_calculate_rule_based_score]. *)
Definition demographic_score (features : lead_features) : Q :=
  let demographic_score := 0 in
  let demographic_score :=
    if negb (get_or (has_phone features) 0 =? 0)%Z
    then demographic_score + 0.3 else demographic_score in
  let demographic_score :=
    if (4 <=? get_or (source_encoded features) 0)%Z
    then demographic_score + 0.4 else demographic_score in
  let demographic_score :=
    if (0 <? get_or (num_interested_courses features) 0)%Z
    then demographic_score + 0.3 else demographic_score in
  demographic_score.

(** The sum [_calculate_rule_based_score] builds before the cap. *)
Definition weighted_sum (w : weights) (features : lead_features) : Q :=
  let score := 0 in
  let score :=
    score + get_or (email_engagement_score features) 0 * w_email_engagement w in
  let score :=
    score + get_or (website_activity_score features) 0 * w_website_activity w in
  let score := score + demographic_score features * w_demographic_fit w in
  let score :=
    score +
    get_or (interaction_frequency features) 0 * w_interaction_frequency w in
  let score :=
    score +
    get_or (content_engagement_score features) 0 * w_content_engagement w in
  score.

(** [_calculate_rule_based_score] *)
Definition _calculate_rule_based_score (w : weights)
    (features : lead_features) : Q :=
  py_min (weighted_sum w features) 1.

Definition improve_email : string :=
  "Improve email content and timing to increase engagement".
Definition encourage_website : string :=
  "Encourage more website exploration with targeted content".
Definition increase_touchpoints : string :=
  "Increase touchpoints through multiple channels".
Definition promote_courses : string :=
  "Identify and promote relevant courses based on lead profile".
Definition nurture : string :=
  "Consider lead nurturing campaign to build interest".
Definition prioritize : string :=
  "High-quality lead - prioritize for direct contact".

(** [a < b] on numbers. *)
Definition Qlt_bool (a b : Q) : bool := negb (Qle_bool b a).

(** [_generate_recommendations] *)
Definition _generate_recommendations (features : lead_features) (score : Q)
    : list string :=
  let recommendations := [] in
  let recommendations :=
    if Qlt_bool (get_or (email_engagement_score features) 0) 0.3
    then append recommendations improve_email else recommendations in
  let recommendations :=
    if Qlt_bool (get_or (website_activity_score features) 0) 0.3
    then append recommendations encourage_website else recommendations in
  let recommendations :=
    if (get_or (total_interactions features) 0 <? 3)%Z
    then append recommendations increase_touchpoints else recommendations in
  let recommendations :=
    if (get_or (num_interested_courses features) 0 =? 0)%Z
    then append recommendations promote_courses else recommendations in
  let recommendations :=
    if Qlt_bool score 40 then append recommendations nurture
    else if Qlt_bool 70 score then append recommendations prioritize
    else recommendations in
  recommendations.

(** The dictionary [calculate_lead_score] returns; the sub-scores and
    the recommendations are absent from the one of the handler. *)
Record lead_score_result : Type := {
  ls_lead_score : Q;
  ls_quality : string;
  ls_ml_score : option Q;
  ls_rule_based_score : option Q;
  ls_features : option lead_features;
  ls_recommendations : option (list string);
  ls_error : option exn
}.

(** What [calculate_lead_score] reads outside its own rules: the
    features of a lead record ([extract_features], which goes through
    the clock) and, when a model is loaded, the body of the [try] of
    [_predict_with_model] (numpy and scikit-learn). *)
Class LeadData (lead : Type) : Type := {
  extract_features : lead -> result lead_features;
  model : option (lead_features -> result Q)
}.

Section Score.
Context {lead : Type} `{LeadData lead}.

(** [_predict_with_model], called when a model is loaded. *)
Definition _predict_with_model (predict : lead_features -> result Q)
    (features : lead_features) : Q :=
  try_except (predict features) (fun _ => 0.5).

(** [calculate_lead_score] *)
Definition calculate_lead_score (w : weights) (lead_data : lead)
    : lead_score_result :=
  try_except
    (let! features := extract_features lead_data in
     let ml_score :=
       match model with
       | Some predict => _predict_with_model predict features
       | None => 0.5
       end in
     let rule_based_score := _calculate_rule_based_score w features in
     let final_score := final_score ml_score rule_based_score in
     let quality := _determine_lead_quality final_score in
     Ok {| ls_lead_score := round2 final_score;
           ls_quality := quality;
           ls_ml_score := Some (round2 (ml_score * 100));
           ls_rule_based_score := Some (round2 (rule_based_score * 100));
           ls_features := Some features;
           ls_recommendations :=
             Some (_generate_recommendations features final_score);
           ls_error := None |})
    (fun e =>
       {| ls_lead_score := 50.0;
          ls_quality := "medium";
          ls_ml_score := None;
          ls_rule_based_score := None;
          ls_features := None;
          ls_recommendations := None;
          ls_error := Some e |}).

End Score.

End LeadFeatures.

(** ** api/lead_routes.py: the route over [score_lead] *)

Module LeadRoutes.

Import LeadScorer.

(** What a route answers: a body, or the [HTTPException] with status
    500 of its handler. *)
Inductive http (A : Type) : Type :=
  | Http200 (body : A)
  | Http500.

Arguments Http200 {A} body.
Arguments Http500 {A}.

(** [LeadScoreByIdResponse], without the identifier and the time. *)
Record by_id_response : Type := {
  r_lead_score : Z;
  r_quality : string;
  r_needs_human_intervention : bool;
  r_interaction_details : list string;
  r_total_interactions : nat
}.

Section Route.
Context `{PyText}.

(** [score_lead_by_id], as a function of the interactions fetched for
    the lead. The second component is the score handed to
    [update_lead_score_in_db], when the route gets that far. *)
Definition score_lead_by_id (interaction_data : list interaction)
    : http by_id_response * option Z :=
  match interaction_data with
  | [] =>
      (Http200 {| r_lead_score := 0;
                  r_quality := "unqualified";
                  r_needs_human_intervention := false;
                  r_interaction_details := ["No interactions found"];
                  r_total_interactions := 0 |},
       None)
  | _ :: _ =>
      let scoring_result := score_lead interaction_data in
      let written := Some (lead_score scoring_result) in
      match total_interactions scoring_result with
      | Some total =>
          (Http200 {| r_lead_score := lead_score scoring_result;
                      r_quality := quality scoring_result;
                      r_needs_human_intervention := escalate scoring_result;
                      r_interaction_details := trace scoring_result;
                      r_total_interactions := total |},
           written)
      | None => (Http500, written)
      end
  end.

End Route.

End LeadRoutes.

(** ** recommender.py: the engagement of a candidate *)

Module CandidateFeatures.

Import LeadFeatures.

Local Open Scope Q_scope.




End CandidateFeatures.

(** ** Ranges of the inputs *)

Module Ranges.

Import Recommender.

Local Open Scope Q_scope.

(** The ranges [extract_candidate_features] keeps its rates and scores
    in: task scores from 0 to 100, the velocity from 0 to 10 and the
    other rates from 0 to 1. *)
Definition normalized_features (f : features) : Prop :=
  (0 <= get_or (avg_task_score f) 0 <= 100) /\
  (0 <= get_or (course_completion_rate f) 0 <= 1) /\
  (0 <= get_or (task_completion_rate f) 0 <= 1) /\
  (0 <= get_or (consistency_score f) 0 <= 1) /\
  (0 <= get_or (improvement_trend f) 0 <= 1) /\
  (0 <= get_or (learning_velocity f) 0 <= 10) /\
  (0 <= get_or (engagement_score f) 0 <= 1) /\
  (0 <= get_or (recent_activity f) 0 <= 1).

(** A competency vector whose scores go from 0 to 100. *)
Definition percent_scores (vector : gmap string Q) : Prop :=
  map_Forall (fun _ score => 0 <= score <= 100) vector.

(** [a] may stand before [b] in a ranking: its overall score is not
    lower. *)
Definition ranked_before (a b : recommendation) : Prop :=
  overall_score b <= overall_score a.

(** The entries of a ranking whose overall score is [q]. *)
Definition with_score (q : Q) (l : list recommendation)
    : list recommendation :=
  List.filter (fun r => Qeq_bool (overall_score r) q) l.

(** The proficiency levels that make a matched skill a strength. *)
Definition strong_level (m : matched_skill) : bool :=
  String.eqb (ms_proficiency m) "expert" ||
  String.eqb (ms_proficiency m) "advanced".

End Ranges.

(** ** More example inputs *)

Module MoreExamples.

Import LeadFeatures.

(** The features of a lead with a phone, from the website, with two
    courses of interest and some engagement. *)
Definition engaged_features : lead_features :=
  {| has_phone := Some 1;
     source_encoded := Some 5;
     total_interactions := Some 5;
     email_engagement_score := Some 0.5%Q;
     website_activity_score := Some 0.4%Q;
     interaction_frequency := Some 1%Q;
     content_engagement_score := Some 0.8%Q;
     num_interested_courses := Some 2 |}.

(** Two lead records: one whose features are [engaged_features] and one
    whose [source] is null, on which [extract_features] raises in
    [_encode_source]. No model is loaded. *)
Inductive sample_lead : Type :=
  | EngagedLead
  | NullSourceLead.

Definition no_model : LeadData sample_lead :=
  {| extract_features := fun l =>
       match l with
       | EngagedLead => Ok engaged_features
       | NullSourceLead => Raise AttributeError
       end;
     model := None |}.

(** A parsed job description one of whose skills is null. *)
Definition null_skill_job : Recommender.job_description :=
  {| Recommender.parsed_requirements :=
       Some {| Recommender.jd_skills :=
                 Some [("technical", [PyStr "python"; PyNone])];
               Recommender.jd_experience_level := None |};
     Recommender.description_text := None;
     Recommender.title := None |}.

End MoreExamples.

(** ** The arithmetic in binary64

    The scores above take each sum and product exactly. Here the blend
    of [calculate_lead_score] and the skill score of
    [calculate_skill_match_score] are evaluated as Python evaluates
    them, in IEEE 754 double precision, every operation rounded to the
    nearest double. *)

Module Binary64.

Definition prec : Z := 53.
Definition emax : Z := 1024.

(** [float(n)] for an integer. *)
Definition of_int (n : Z) : spec_float := binary_normalize prec emax n 0 false.

(** The double a decimal literal [n/d] denotes: the nearest one. *)
Definition literal (n d : Z) : spec_float :=
  SFdiv prec emax (of_int n) (of_int d).

Definition add : spec_float -> spec_float -> spec_float := SFadd prec emax.
Definition mul : spec_float -> spec_float -> spec_float := SFmul prec emax.
Definition div : spec_float -> spec_float -> spec_float := SFdiv prec emax.

(** The rational a finite double is. *)
Definition value (x : spec_float) : option Q :=
  match x with
  | S754_zero _ => Some 0%Q
  | S754_finite s m e =>
      Some ((if s then -(1) else 1) * inject_Z (Zpos m) * 2 ^ e)%Q
  | S754_infinity _ => None
  | S754_nan => None
  end.

Definition sign (x : spec_float) : bool :=
  match x with
  | S754_zero s => s
  | S754_finite s _ _ => s
  | S754_infinity s => s
  | S754_nan => false
  end.

(** An integer of any size as a numerator, with the sign a zero keeps. *)
Definition numerator (s : bool) (n : Z) : spec_float :=
  match n with
  | Z0 => S754_zero s
  | Zpos p => S754_finite false p 0
  | Zneg p => S754_finite true p 0
  end.

(** [round(x, 2)] of a Python float: the hundredth nearest to the value
    of [x], ties to the even one, and then the double nearest to that
    hundredth. *)
Definition py_round2 (x : spec_float) : spec_float :=
  match value x with
  | Some q =>
      SFdiv prec emax (numerator (sign x) (round_half_even (q * 100)))
        (of_int 100)
  | None => x
  end.

(** [rint]: the nearest integer, ties to the even one. *)
Definition rint (x : spec_float) : spec_float :=
  match value x with
  | Some q =>
      match round_half_even q with
      | Z0 => S754_zero (sign x)
      | n => of_int n
      end
  | None => x
  end.

(** [round(x, 2)] of a numpy double, which numpy computes as
    [rint(x * 100) / 100]. *)
Definition np_round2 (x : spec_float) : spec_float :=
  div (rint (mul x (of_int 100))) (of_int 100).

(** A double is a Python float or a numpy double; the two round
    differently. *)
Inductive kind : Type := PyFloat | NpFloat64.

Definition round2_of (k : kind) : spec_float -> spec_float :=
  match k with
  | PyFloat => py_round2
  | NpFloat64 => np_round2
  end.

(** The blend of [calculate_lead_score]. *)
Definition final_score (ml_score rule_based_score : spec_float) : spec_float :=
  let final_score :=
    mul (add (mul ml_score (literal 7 10))
             (mul rule_based_score (literal 3 10)))
        (of_int 100) in
  let capped :=
    if SFltb final_score (of_int 100) then final_score else of_int 100 in
  if SFltb (of_int 0) capped then capped else of_int 0.

(** The entry [lead_score]; [k] is the kind of the blend: a Python float
    from the default 0.5, a numpy double from the prediction of a
    model. The bounds 0 and 100 are integers, which either rounding
    leaves as they are. *)
Definition reported_lead_score (k : kind)
    (ml_score rule_based_score : spec_float) : spec_float :=
  round2_of k (final_score ml_score rule_based_score).

(** [np.mean], the one library function the skill score calls on
    numbers. *)
Class NumPy : Type := {
  np_mean : list spec_float -> spec_float
}.

(** The mean summed from left to right. numpy adds in blocks; on scores
    whose sums are exact, as those of integer scores are, every order
    of adding gives this value. *)
Definition sequential_mean : NumPy :=
  {| np_mean := fun l =>
       div (fold_left add l (of_int 0)) (of_int (Z.of_nat (List.length l))) |}.

(** [_get_proficiency_level] *)
Definition _get_proficiency_level (score : spec_float) : string :=
  if SFleb (of_int 90) score then "expert"
  else if SFleb (of_int 80) score then "advanced"
  else if SFleb (of_int 70) score then "intermediate"
  else if SFleb (of_int 60) score then "beginner"
  else "novice".

Record matched_skill : Type := {
  ms_skill : pyval;
  ms_score : spec_float;
  ms_proficiency : string
}.

(** The dictionary [calculate_skill_match_score] returns. *)
Record skill_match : Type := {
  sm_score : spec_float;
  sm_match_rate : option spec_float;
  sm_avg_skill_score : option spec_float;
  sm_matched_skills : list matched_skill;
  sm_missing_skills : list pyval
}.

Record skill_tally : Type := {
  matched_skills : list matched_skill;
  missing_skills : list pyval;
  skill_scores : list spec_float
}.

(** The kind of the average and of the overall score: [np.mean] gives a
    numpy double, no matched skill leaves the integer 0 and a Python
    float. *)
Definition kind_of_mean (skill_scores : list spec_float) : kind :=
  match skill_scores with
  | [] => PyFloat
  | _ :: _ => NpFloat64
  end.

Section SkillMatch.
Context `{PyText} `{NumPy}.

(** The loop over the required skills. *)
Fixpoint match_skills (candidate_competencies : gmap string spec_float)
    (required_skills : list pyval) (st : skill_tally) : result skill_tally :=
  match required_skills with
  | [] => Ok st
  | skill :: rest =>
      let! lowered := py_lower skill in
      let skill_normalized := replace_space lowered in
      match candidate_competencies !! skill_normalized with
      | Some score =>
          match_skills candidate_competencies rest
            {| matched_skills :=
                 append (matched_skills st)
                   {| ms_skill := skill;
                      ms_score := score;
                      ms_proficiency := _get_proficiency_level score |};
               missing_skills := missing_skills st;
               skill_scores := append (skill_scores st) score |}
      | None =>
          match_skills candidate_competencies rest
            {| matched_skills := matched_skills st;
               missing_skills := append (missing_skills st) skill;
               skill_scores := skill_scores st |}
      end
  end.

(** [calculate_skill_match_score] *)
Definition calculate_skill_match_score
    (candidate_competencies : gmap string spec_float)
    (required_skills : list pyval) : result skill_match :=
  match required_skills with
  | [] =>
      Ok {| sm_score := of_int 0;
            sm_match_rate := None;
            sm_avg_skill_score := None;
            sm_matched_skills := [];
            sm_missing_skills := [] |}
  | _ :: _ =>
      let! st :=
        match_skills candidate_competencies required_skills
          {| matched_skills := []; missing_skills := []; skill_scores := [] |}
      in
      let match_rate :=
        div (of_int (Z.of_nat (List.length (matched_skills st))))
            (of_int (Z.of_nat (List.length required_skills))) in
      let avg_skill_score :=
        match skill_scores st with
        | [] => of_int 0
        | _ :: _ => np_mean (skill_scores st)
        end in
      let overall_score :=
        mul (add (mul match_rate (literal 6 10))
                 (mul (div avg_skill_score (of_int 100)) (literal 4 10)))
            (of_int 100) in
      let k := kind_of_mean (skill_scores st) in
      Ok {| sm_score := round2_of k overall_score;
            sm_match_rate := Some (py_round2 (mul match_rate (of_int 100)));
            sm_avg_skill_score := Some (round2_of k avg_skill_score);
            sm_matched_skills := matched_skills st;
            sm_missing_skills := missing_skills st |}
  end.

(** The words of the specification, in doubles: a required skill is
    present when the key it is looked up under is in the vector. *)
Definition present (vector : gmap string spec_float) (skill : string) : bool :=
  match vector !! replace_space (lower skill) with
  | Some _ => true
  | None => false
  end.

Definition match_rate (vector : gmap string spec_float)
    (required : list string) : spec_float :=
  div (of_int (Z.of_nat (List.length (List.filter (present vector) required))))
      (of_int (Z.of_nat (List.length required))).

Definition matched_scores (vector : gmap string spec_float)
    (required : list string) : list spec_float :=
  omap (fun skill => vector !! replace_space (lower skill)) required.

Definition avg_matched_score (vector : gmap string spec_float)
    (required : list string) : spec_float :=
  match matched_scores vector required with
  | [] => of_int 0
  | _ :: _ => np_mean (matched_scores vector required)
  end.

(** [(match_rate*0.6 + avg_matched_score/100*0.4) * 100] *)
Definition skill_formula (vector : gmap string spec_float)
    (required : list string) : spec_float :=
  mul (add (mul (match_rate vector required) (literal 6 10))
           (mul (div (avg_matched_score vector required) (of_int 100))
                (literal 4 10)))
      (of_int 100).


Definition matched_entries (vector : gmap string spec_float)
    (required : list string) : list matched_skill :=
  omap (fun skill =>
          match vector !! replace_space (lower skill) with
          | Some score =>
              Some {| ms_skill := PyStr skill;
                      ms_score := score;
                      ms_proficiency := _get_proficiency_level score |}
          | None => None
          end) required.

Definition missing_entries (vector : gmap string spec_float)
    (required : list string) : list pyval :=
  map PyStr (List.filter (fun skill => negb (present vector skill)) required).

End SkillMatch.

(** The competency vectors of the examples, in doubles. *)
Definition python_90 : gmap string spec_float := {[ "python" := of_int 90 ]}.
Definition a_50 : gmap string spec_float := {[ "a" := of_int 50 ]}.

(** Sixteen skills, fifteen at 80 and one at 3. *)
Definition sixteen_skills : list string :=
  ["s01"; "s02"; "s03"; "s04"; "s05"; "s06"; "s07"; "s08";
   "s09"; "s10"; "s11"; "s12"; "s13"; "s14"; "s15"; "s16"]%string.

Definition fifteen_80_one_3 : gmap string spec_float :=
  list_to_map
    (map (fun skill =>
            (skill, if String.eqb skill "s16" then of_int 3 else of_int 80))
         sixteen_skills).

End Binary64.

(** ** Requests with fields of any type *)

Module Requests.

Import LeadScorer Spec.

Section Negative.
Context `{PyText}.



End Negative.

(** A visit of the pricing page followed by a contact form whose
    content is null. *)
Definition pricing_visit : interaction :=
  {| i_type := Some (PyStr "page_visit");
     i_content := None;
     i_duration := None;
     i_page_url := Some (PyStr "/pricing") |}.

Definition form_with_null_content : interaction :=
  {| i_type := Some (PyStr "form_submission");
     i_content := Some PyNone;
     i_duration := None;
     i_page_url := None |}.

(** The same form with the content key left out. *)
Definition form_without_content : interaction :=
  {| i_type := Some (PyStr "form_submission");
     i_content := None;
     i_duration := None;
     i_page_url := None |}.


End Requests.

(** * Properties *)

Section Rounding.



Lemma Qle_bool_false (x y : Q) : Qle_bool x y = false -> (y < x)%Q.
Proof.
  intros Hf. apply Qnot_le_lt. intros Hle.
  apply Qle_bool_iff in Hle. congruence.
Qed.

End Rounding.

Ltac qle_cases :=
  repeat match goal with
  | |- context [Qle_bool ?a ?b] =>
      let E := fresh "E" in
      destruct (Qle_bool a b) eqn:E;
      [apply Qle_bool_iff in E | apply Qle_bool_false in E]
  end.

Section LeadQuality.

Import LeadScorer.

(** C1: the tier of a score is hot exactly from 80 up, warm exactly on
    [60, 80), medium exactly on [40, 60), cold exactly on [20, 40) and
    very_cold exactly below 20; each lower bound belongs to its tier. *)
Theorem quality_tier_exact (s : Q) :
  (_determine_lead_quality s = "hot" <-> (80 <= s)%Q) /\
  (_determine_lead_quality s = "warm" <-> (60 <= s /\ s < 80)%Q) /\
  (_determine_lead_quality s = "medium" <-> (40 <= s /\ s < 60)%Q) /\
  (_determine_lead_quality s = "cold" <-> (20 <= s /\ s < 40)%Q) /\
  (_determine_lead_quality s = "very_cold" <-> (s < 20)%Q) /\
  map _determine_lead_quality [19; 20; 39; 40; 59; 60; 79; 80]%Q =
    ["very_cold"; "cold"; "cold"; "medium"; "medium"; "warm"; "warm"; "hot"].
Proof.
  split; [|split; [|split; [|split; [|split]]]]; try reflexivity;
    unfold _determine_lead_quality; qle_cases;
    split; intros; try discriminate; try reflexivity; try lra;
    exfalso; lra.
Qed.


End LeadQuality.



Section ContentAnalysis.

Import LeadScorer Spec.
Context `{PyText}.

Lemma scan_enterprise_eq (keywords : list string) (t : string) (score : Z) :
  scan_enterprise keywords t score =
  score + (if any_hit keywords t then 30 else 0).
Proof.
  induction keywords as [|k rest IH]; simpl; [lia|].
  destruct (contains k t); simpl; [reflexivity | exact IH].
Qed.

Lemma scan_positive_eq (keywords : list string) (t : string) (score : Z) :
  scan_positive keywords t score = score + 5 * Z.of_nat (hits keywords t).
Proof.
  revert score. unfold hits.
  induction keywords as [|k rest IH]; intros score; simpl; [lia|].
  rewrite IH. destruct (contains k t); simpl List.length; lia.
Qed.

Lemma scan_negative_eq (keywords : list string) (t : string) (b : bool) :
  scan_negative keywords t b = any_hit keywords t || b.
Proof.
  induction keywords as [|k rest IH]; simpl; [reflexivity|].
  destruct (contains k t); simpl; [reflexivity | exact IH].
Qed.

Lemma scan_patterns_eq (patterns : list string) (t : string) (b : bool) :
  scan_patterns patterns t b =
  existsb (fun pattern => re_search pattern t) patterns || b.
Proof.
  induction patterns as [|p rest IH]; simpl; [reflexivity|].
  destruct (re_search p t); simpl; [reflexivity | exact IH].
Qed.

Lemma nlp_points_nonneg (t : string) : 0 <= nlp_points t.
Proof.
  unfold nlp_points, enterprise_points, positive_points.
  destruct (any_hit enterprise_keywords t); lia.
Qed.

(** On a string, [_analyze_content_nlp] returns the points of the two
    scoring rules and the negative-sentiment flag. *)
Lemma analyze_content_str (content : string) :
  _analyze_content_nlp (PyStr content) =
  (nlp_points (lower content), negative_hit (lower content)).
Proof.
  unfold _analyze_content_nlp, analyze_content_body, py_lower, bind,
    try_except.
  cbv beta iota zeta.
  rewrite scan_positive_eq, scan_enterprise_eq, scan_negative_eq.
  f_equal.
  - fold (enterprise_points (lower content)).
    fold (positive_points (lower content)).
    fold (nlp_points (lower content)).
    pose proof (nlp_points_nonneg (lower content)). unfold nlp_points in *. lia.
  - unfold negative_hit. rewrite scan_patterns_eq, !orb_false_r.
    destruct (any_hit negative_keywords (lower content));
      cbn [negb orb]; rewrite ?orb_false_r; reflexivity.
Qed.

Lemma analyze_content_nonneg (content : pyval) :
  0 <= fst (_analyze_content_nlp content).
Proof.
  destruct content as [|s|n];
    [ simpl; lia
    | rewrite analyze_content_str; apply nlp_points_nonneg
    | simpl; lia ].
Qed.

(** C5: in one message the enterprise rule adds exactly 30 when at least
    one enterprise keyword occurs, however many of them occur, and
    nothing otherwise; the score of the message is that plus 5 for each
    positive keyword found. *)
Theorem enterprise_counted_once (content : string) :
  let found := hits enterprise_keywords (lower content) in
  scan_enterprise enterprise_keywords (lower content) 0 =
    (if (0 <? found)%nat then 30 else 0) /\
  fst (_analyze_content_nlp (PyStr content)) =
    (if (0 <? found)%nat then 30 else 0) +
    5 * Z.of_nat (hits positive_keywords (lower content)).
Proof.
  intros found.
  assert (Hany : any_hit enterprise_keywords (lower content) =
                 (0 <? found)%nat).
  { subst found. unfold any_hit, hits.
    induction enterprise_keywords as [|k rest IH]; simpl; [reflexivity|].
    destruct (contains k (lower content)); simpl; [reflexivity | exact IH]. }
  split.
  - rewrite scan_enterprise_eq, Hany. lia.
  - rewrite analyze_content_str. simpl fst.
    unfold nlp_points, enterprise_points, positive_points.
    rewrite Hany. reflexivity.
Qed.

End ContentAnalysis.

Section InteractionScoring.

Import LeadScorer Spec.
Context `{PyText}.

Lemma get_or_map {A B : Type} (f : A -> B) (o : option A) (d : A) :
  get_or (option_map f o) (f d) = f (get_or o d).
Proof. destruct o; reflexivity. Qed.

Lemma tally_eq (a a' : Z) (b b' : bool) (c c' : list string) :
  a = a' -> b = b' -> c = c' ->
  Ok {| total_score := a;
        needs_human_intervention := b;
        interaction_details := c |} =
  Ok {| total_score := a';
        needs_human_intervention := b';
        interaction_details := c' |}.
Proof. intros -> -> ->. reflexivity. Qed.

(** On an event of the data model the loop body never raises: it adds
    the contribution of the event, joins its negative flag and extends
    the trace by its lines. *)
Lemma score_interaction_event (st : tally) (e : event) :
  score_interaction st (to_interaction e) =
  Ok {| total_score := total_score st + contribution e;
        needs_human_intervention :=
          needs_human_intervention st || negative_message e;
        interaction_details :=
          (interaction_details st ++ event_trace e)%list |}.
Proof.
  unfold score_interaction, to_interaction.
  cbn [i_type i_content i_duration i_page_url].
  rewrite !(get_or_map PyStr), (get_or_map PyInt).
  fold (kind e) (text e) (seconds e) (page e).
  cbn [py_lower bind py_gt py_eq_str truthy].
  rewrite analyze_content_str.
  unfold contribution, event_trace, message_points, negative_message,
    pricing_page, long_python_view, form_submitted, is_message.
  set (p := contains "pricing" (lower (page e)) ||
            contains "gia" (lower (page e))).
  set (yu := contains "python" (lower (page e))).
  set (yc := contains "python" (lower (text e))).
  set (d := 180 <? seconds e).
  set (f1 := String.eqb (kind e) "form_submission").
  set (f2 := contains "contact" (lower (kind e))).
  set (m := (String.eqb (kind e) "chat" || String.eqb (kind e) "message") &&
            negb (String.eqb (text e) "")).
  set (n := nlp_points (lower (text e))).
  set (ng := negative_hit (lower (text e))).
  clearbody p yu yc d f1 f2 m n ng.
  destruct st as [total needs details].
  cbn [total_score needs_human_intervention interaction_details].
  destruct p, yu, yc, d, f1, f2, m, ng; cbn [bind orb andb];
    try destruct (0 <? n); cbn [Z.ltb Z.compare];
    apply tally_eq; cbn [orb andb]; try lia;
    try (destruct needs; reflexivity);
    unfold append; rewrite <- ?app_assoc; cbn [app];
    rewrite ?app_nil_r; reflexivity.
Qed.

Lemma score_interactions_events (st : tally) (events : list event) :
  score_interactions st (map to_interaction events) =
  Ok {| total_score := total_score st + sum_contributions events;
        needs_human_intervention :=
          needs_human_intervention st || existsb negative_message events;
        interaction_details :=
          (interaction_details st ++ flat_map event_trace events)%list |}.
Proof.
  revert st. induction events as [|e rest IH]; intros st.
  - destruct st as [total needs details]. cbn. apply tally_eq;
      [lia | symmetry; apply orb_false_r | symmetry; apply app_nil_r].
  - cbn [map score_interactions]. rewrite score_interaction_event.
    cbn [bind]. rewrite IH.
    cbn [total_score needs_human_intervention interaction_details
         sum_contributions fold_right existsb flat_map].
    apply tally_eq;
      [ fold (sum_contributions rest); lia
      | symmetry; apply orb_assoc
      | symmetry; apply app_assoc ].
Qed.

Lemma contribution_nonneg (e : event) : 0 <= contribution e.
Proof.
  unfold contribution, message_points.
  pose proof (nlp_points_nonneg (lower (text e))).
  destruct (pricing_page e), (long_python_view e), (form_submitted e),
    (is_message e); lia.
Qed.

Lemma sum_contributions_nonneg (events : list event) :
  0 <= sum_contributions events.
Proof.
  induction events as [|e rest IH]; cbn; [lia|].
  pose proof (contribution_nonneg e). fold (sum_contributions rest). lia.
Qed.

(** Whatever the dictionary holds, a turn of the loop that does not
    raise leaves the score at least as high and keeps a raised flag. *)
Lemma score_interaction_grows (st st' : tally) (i : interaction) :
  score_interaction st i = Ok st' ->
  total_score st <= total_score st' /\
  Bool.le (needs_human_intervention st) (needs_human_intervention st').
Proof.
  unfold score_interaction. intros Hs.
  repeat match type of Hs with
  | context [bind ?r _] =>
      destruct r; cbn [bind] in Hs; [|discriminate Hs]
  end.
  pose proof (analyze_content_nonneg (get_or (i_content i) (PyStr ""))) as Hn.
  destruct (_analyze_content_nlp (get_or (i_content i) (PyStr "")))
    as [nlp_score sentiment_flag].
  cbn [fst] in Hn.
  repeat match type of Hs with
  | context [if ?b then _ else _] => destruct b
  end;
  injection Hs as <-; cbn [total_score needs_human_intervention];
  (split; [lia | destruct (needs_human_intervention st); exact I || reflexivity]).
Qed.

Lemma score_interactions_grow (data : list interaction) (st st' : tally) :
  score_interactions st data = Ok st' ->
  total_score st <= total_score st' /\
  Bool.le (needs_human_intervention st) (needs_human_intervention st').
Proof.
  revert st. induction data as [|i rest IH]; intros st; cbn [score_interactions].
  - intros [= <-]. split; [lia | destruct (needs_human_intervention st); easy].
  - destruct (score_interaction st i) as [st1|e] eqn:E1; cbn [bind];
      [|discriminate].
    intros Hrest. apply score_interaction_grows in E1 as [Ht1 Hf1].
    apply IH in Hrest as [Ht2 Hf2]. split; [lia|].
    destruct (needs_human_intervention st); [|exact I].
    cbn in Hf1. rewrite Hf1 in Hf2. exact Hf2.
Qed.


End InteractionScoring.

Section ScoreLead.

Import LeadScorer Spec.
Context `{PyText}.

Lemma score_lead_events (events : list event) :
  score_lead (map to_interaction events) =
  {| lead_score := sum_contributions events;
     quality := _determine_lead_quality (inject_Z (sum_contributions events));
     escalate := existsb negative_message events;
     trace := flat_map event_trace events;
     total_interactions := Some (List.length (map to_interaction events));
     error := None |}.
Proof.
  unfold score_lead. rewrite score_interactions_events. reflexivity.
Qed.

Lemma score_lead_nonneg (data : list interaction) :
  0 <= lead_score (score_lead data).
Proof.
  unfold score_lead.
  destruct (score_interactions start data) as [st|e] eqn:E;
    cbn [bind try_except lead_score]; [|lia].
  apply score_interactions_grow in E as [Ht _]. exact Ht.
Qed.

(** X22: the score [score_lead] returns for a list of events is the sum
    over the events of the contributions of the rules (10 for a pricing
    page, 15 for a long Python view, 20 for a form, the points of the
    message analysis), the trace is the lines of these contributions in
    the order the events are processed, and the score is never negative,
    whatever the request holds. *)
Theorem score_is_sum_of_contributions (events : list event)
    (data : list interaction) :
  lead_score (score_lead (map to_interaction events)) =
    sum_contributions events /\
  trace (score_lead (map to_interaction events)) =
    flat_map event_trace events /\
  error (score_lead (map to_interaction events)) = None /\
  0 <= sum_contributions events /\
  0 <= lead_score (score_lead data).
Proof.
  rewrite score_lead_events. cbn [lead_score trace error].
  repeat split;
    [apply sum_contributions_nonneg | apply score_lead_nonneg].
Qed.





Lemma quality_in_tiers (s : Q) : In (_determine_lead_quality s) tiers.
Proof.
  unfold _determine_lead_quality, tiers.
  repeat match goal with
  | |- context [Qle_bool ?a ?b] => destruct (Qle_bool a b)
  end; cbn; tauto.
Qed.

(** C9: when the loop of [score_lead] raises, the exception stops in
    [score_lead], which returns score 0, the flag raised, an empty
    trace, the error and the label unqualified; that label is none of
    the five tiers, one of which labels every result of the normal
    path. *)
Theorem score_lead_on_exception (data : list interaction) (e : exn) :
  score_interactions start data = Raise e ->
  score_lead data =
    {| lead_score := 0;
       quality := "unqualified";
       escalate := true;
       trace := [];
       total_interactions := None;
       error := Some e |} /\
  ~ In "unqualified" tiers /\
  (forall ok : list interaction,
     error (score_lead ok) = None -> In (quality (score_lead ok)) tiers).
Proof.
  intros Hraise. split; [|split].
  - unfold score_lead. rewrite Hraise. reflexivity.
  - unfold tiers. cbn. intros Hin.
    repeat (destruct Hin as [Hin|Hin]; [discriminate Hin|]). exact Hin.
  - intros ok. unfold score_lead.
    destruct (score_interactions start ok) as [st|e']; cbn; [|discriminate].
    intros _. apply quality_in_tiers.
Qed.

End ScoreLead.

(** C4, at a form whose content is null: after a visit of the pricing
    page, a contact form with [content: None] makes the second rule
    raise, and [score_lead] returns the score 0 and an empty trace, not
    10 + 20 with the two lines. The same form with the content left out
    scores 30 with both lines. *)
Theorem score_lost_on_null_content :
  let returned :=
    LeadScorer.score_lead (H := ascii_text)
      [Requests.pricing_visit; Requests.form_with_null_content] in
  let without_content :=
    LeadScorer.score_lead (H := ascii_text)
      [Requests.pricing_visit; Requests.form_without_content] in
  LeadScorer.score_interaction (H := ascii_text) LeadScorer.start
    Requests.pricing_visit =
    Ok {| LeadScorer.total_score := 10;
          LeadScorer.needs_human_intervention := false;
          LeadScorer.interaction_details := ["Visited pricing page (+10)"] |} /\
  LeadScorer.lead_score returned = 0 /\
  LeadScorer.trace returned = [] /\
  LeadScorer.error returned = Some AttributeError /\
  LeadScorer.lead_score without_content = 30 /\
  LeadScorer.trace without_content =
    ["Visited pricing page (+10)"; "Submitted contact form (+20)"] /\
  LeadScorer.error without_content = None.
Proof. vm_compute. repeat split; reflexivity. Qed.


(** The three events of the first example score 10 + 15 + 20 = 45, a
    medium lead. *)
Example score_lead_pricing_python_form :
  LeadScorer.score_lead (H := ascii_text)
    (map Spec.to_interaction Examples.pricing_python_form) =
  {| LeadScorer.lead_score := 45;
     LeadScorer.quality := "medium";
     LeadScorer.escalate := false;
     LeadScorer.trace :=
       [ "Visited pricing page (+10)";
         "Viewed Python course >3min (+15)";
         "Submitted contact form (+20)" ];
     LeadScorer.total_interactions := Some 3%nat;
     LeadScorer.error := None |}.
Proof. vm_compute. reflexivity. Qed.

(** Three enterprise keywords in one message count 30 once; the
    positive keyword adds 5 and the negative one raises the flag. *)
Example score_lead_unhappy_enterprise_chat :
  LeadScorer.score_lead (H := ascii_text)
    (map Spec.to_interaction Examples.unhappy_enterprise_chat) =
  {| LeadScorer.lead_score := 35;
     LeadScorer.quality := "cold";
     LeadScorer.escalate := true;
     LeadScorer.trace :=
       [ "Negative sentiment detected - needs human intervention";
         "NLP analysis (+35)" ];
     LeadScorer.total_interactions := Some 1%nat;
     LeadScorer.error := None |}.
Proof. vm_compute. reflexivity. Qed.

(** A request whose page is null: [None.lower()] raises in the first
    rule, after a first event that had scored 10. *)
Lemma score_lead_on_exception_witness :
  LeadScorer.score_lead (H := ascii_text)
    [ {| LeadScorer.i_type := Some (PyStr "page_visit");
         LeadScorer.i_content := None;
         LeadScorer.i_duration := None;
         LeadScorer.i_page_url := Some (PyStr "/pricing") |};
      {| LeadScorer.i_type := Some (PyStr "chat");
         LeadScorer.i_content := Some (PyStr "hello");
         LeadScorer.i_duration := None;
         LeadScorer.i_page_url := Some PyNone |} ] =
    {| LeadScorer.lead_score := 0;
       LeadScorer.quality := "unqualified";
       LeadScorer.escalate := true;
       LeadScorer.trace := [];
       LeadScorer.total_interactions := None;
       LeadScorer.error := Some AttributeError |}.
Proof.
  apply (score_lead_on_exception (H := ascii_text)). reflexivity.
Defined.

Section ExperienceMatch.

Import Recommender Spec.

Lemma required_score_rank (required : string) :
  get_or (exp_mapping !! required) 3 = rank (required_bucket required).
Proof.
  unfold required_bucket.
  destruct (String.eqb_spec required "entry_level") as [->|N1];
    [reflexivity|].
  destruct (String.eqb_spec required "junior") as [->|N2]; [reflexivity|].
  destruct (String.eqb_spec required "mid_level") as [->|N3]; [reflexivity|].
  destruct (String.eqb_spec required "senior") as [->|N4]; [reflexivity|].
  destruct (String.eqb_spec required "executive") as [->|N5]; [reflexivity|].
  unfold exp_mapping.
  rewrite !lookup_insert_ne, lookup_singleton_ne by congruence.
  reflexivity.
Qed.

Lemma step_shortfall (c r : Z) :
  fst (if r <=? c then (100, "excellent")
       else if c =? r - 1 then (75, "good")
       else if c =? r - 2 then (50, "fair")
       else (25, "poor")) =
  step (Z.max 0 (r - c)).
Proof.
  unfold step.
  destruct (Z.leb_spec r c).
  - replace (Z.max 0 (r - c)) with 0 by lia. reflexivity.
  - replace (Z.max 0 (r - c)) with (r - c) by lia.
    destruct (Z.eqb_spec c (r - 1)).
    + replace (r - c) with 1 by lia. reflexivity.
    + destruct (Z.eqb_spec c (r - 2)).
      * replace (r - c) with 2 by lia. reflexivity.
      * destruct (Z.eqb_spec (r - c) 0); [lia|].
        destruct (Z.eqb_spec (r - c) 1); [lia|].
        destruct (Z.eqb_spec (r - c) 2); [lia|]. reflexivity.
Qed.

Lemma em_score_fst (p : Z * string) (a b : string) :
  em_score (let '(match_score, match_quality) := p in
            {| em_score := match_score;
               em_candidate_level := a;
               em_required_level := b;
               em_match_quality := match_quality |}) = fst p.
Proof. destruct p; reflexivity. Qed.

(** C2, as the code has it: the experience match is the step function
    100, 75, 50, 25 of how many buckets the candidate is below the
    required level, a candidate at or above the required level scoring
    100; a required level that is not recognized counts as mid. *)
Theorem experience_match_shortfall (f : features) (required : string) :
  em_score (calculate_experience_match f required) =
  experience_by_shortfall f required.
Proof.
  unfold calculate_experience_match, experience_by_shortfall,
    candidate_bucket.
  cbv zeta. rewrite em_score_fst, required_score_rank, step_shortfall.
  destruct (Qle_bool 85 (get_or (avg_competency_score f) 0%Q) &&
            (365 <=? get_or (days_since_enrollment f) 0)); [reflexivity|].
  destruct (Qle_bool 70 (get_or (avg_competency_score f) 0%Q) &&
            (180 <=? get_or (days_since_enrollment f) 0)); [reflexivity|].
  destruct (Qle_bool 60 (get_or (avg_competency_score f) 0%Q)); reflexivity.
Qed.

End ExperienceMatch.

(** A senior candidate against an entry-level requirement is three
    buckets away, which the step function of the distance maps to 25;
    the code returns 100. *)
Lemma experience_match_not_by_distance :
  Recommender.em_score
    (Recommender.calculate_experience_match Examples.senior_features
       "entry_level")
    = 100 /\
  Spec.experience_by_distance Examples.senior_features "entry_level" = 25 /\
  Recommender.em_score
    (Recommender.calculate_experience_match Examples.senior_features
       "entry_level")
    <> Spec.experience_by_distance Examples.senior_features "entry_level".
Proof. repeat split; vm_compute; congruence. Qed.

Section SkillMatchScore.

Import Recommender Spec.
Context `{PyText}.

Lemma match_skills_strings (vector : gmap string Q) (required : list string)
    (st : skill_tally) :
  match_skills vector (map PyStr required) st =
  Ok {| matched_skills :=
          (matched_skills st ++ matched_entries vector required)%list;
        missing_skills :=
          (missing_skills st ++ missing_entries vector required)%list;
        skill_scores :=
          (skill_scores st ++ matched_scores vector required)%list |}.
Proof.
  revert st. induction required as [|skill rest IH]; intros st.
  - destruct st. cbn. rewrite !app_nil_r. reflexivity.
  - cbn [map match_skills normalize_skill py_lower bind].
    fold (normalized skill).
    unfold matched_entries, missing_entries, matched_scores, present.
    cbn [omap list_omap List.filter].
    destruct (vector !! normalized skill) as [score|] eqn:E;
      rewrite IH; cbn [matched_skills missing_skills skill_scores negb map];
      unfold append, matched_entries, missing_entries, matched_scores,
        present;
      rewrite <- ?app_assoc; reflexivity.
Qed.

Lemma matched_entries_length (vector : gmap string Q)
    (required : list string) :
  List.length (matched_entries vector required) =
  List.length (List.filter (present vector) required).
Proof.
  unfold matched_entries, present.
  induction required as [|skill rest IH]; [reflexivity|].
  cbn [omap list_omap List.filter].
  destruct (vector !! normalized skill); cbn [List.length]; lia.
Qed.

(** The score [calculate_skill_match_score] returns for a list of skill
    names: 0 for the empty list, else the formula rounded to two
    decimals. *)
Lemma skill_match_score_eq (vector : gmap string Q) (required : list string) :
  exists sm : skill_match,
    calculate_skill_match_score vector (map PyStr required) = Ok sm /\
    sm_score sm =
      match required with
      | [] => 0%Q
      | _ :: _ => round2 (skill_formula vector required)
      end.
Proof.
  destruct required as [|skill rest]; [eexists; split; reflexivity|].
  unfold calculate_skill_match_score.
  change (map PyStr (skill :: rest)) with (PyStr skill :: map PyStr rest) at 1.
  cbv iota. rewrite match_skills_strings. cbn [bind].
  eexists; split; [reflexivity|].
  cbn [sm_score matched_skills skill_scores app].
  rewrite matched_entries_length, length_map.
  reflexivity.
Qed.

End SkillMatchScore.

Section SkillMatchBinary64.

Import Binary64.
Context `{PyText} `{NumPy}.




End SkillMatchBinary64.



(** Why the arithmetic is taken in doubles: sixteen matched skills,
    fifteen at 80 and one at 3, put the formula at 90.07499999999999 and
    the score at 90.07, where sums and products taken exactly give
    90.075 and 90.08. *)
Lemma skill_score_below_the_tie :
  exists sm : Binary64.skill_match,
    Binary64.calculate_skill_match_score (H := ascii_text)
      (H0 := Binary64.sequential_mean) Binary64.fifteen_80_one_3
      (map PyStr Binary64.sixteen_skills) = Ok sm /\
    Binary64.skill_formula (H := ascii_text) (H0 := Binary64.sequential_mean)
      Binary64.fifteen_80_one_3 Binary64.sixteen_skills =
      S754_finite false 6338464631803084 (-46) /\
    Binary64.sm_score sm = Binary64.literal 9007 100.
Proof.
  eexists. split; [vm_compute; reflexivity|].
  split; vm_compute; reflexivity.
Qed.

Section Ranking.

Import Recommender Spec.

Lemma insert_desc_length (r : recommendation) (l : list recommendation) :
  List.length (insert_desc r l) = S (List.length l).
Proof.
  induction l as [|r' rest IH]; [reflexivity|].
  cbn [insert_desc]. destruct (Qle_bool (overall_score r') (overall_score r));
    cbn [List.length]; [reflexivity | rewrite IH; reflexivity].
Qed.

Lemma sort_desc_length (l : list recommendation) :
  List.length (sort_desc l) = List.length l.
Proof.
  induction l as [|r rest IH]; [reflexivity|].
  cbn [sort_desc fold_right]. fold (sort_desc rest).
  rewrite insert_desc_length, IH. reflexivity.
Qed.

Lemma slice_to_length {A : Type} (l : list A) (k : Z) :
  (List.length (slice_to l k) <= List.length l)%nat.
Proof.
  unfold slice_to. destruct (k <? 0); rewrite length_firstn; lia.
Qed.

Lemma slice_to_nat {A : Type} (l : list A) (k : nat) :
  slice_to l (Z.of_nat k) = firstn k l.
Proof.
  unfold slice_to. destruct (Z.ltb_spec (Z.of_nat k) 0); [lia|].
  rewrite Nat2Z.id. reflexivity.
Qed.

Context `{PyText} {candidate : Type} `{CandidateData candidate}.

Lemma collect_successes (required_skills : list pyval)
    (required_experience : string) (candidates : list candidate)
    (recommendations : list recommendation) :
  collect required_skills required_experience recommendations candidates =
  (recommendations ++
   successes required_skills required_experience candidates)%list.
Proof.
  revert recommendations.
  induction candidates as [|c rest IH]; intros recommendations.
  - cbn. symmetry. apply app_nil_r.
  - cbn [collect successes flat_map]. rewrite IH.
    fold (successes required_skills required_experience rest).
    destruct (score_candidate required_skills required_experience c);
      cbn [bind try_except]; unfold append;
      [rewrite <- app_assoc|]; reflexivity.
Qed.

Lemma successes_length (required_skills : list pyval)
    (required_experience : string) (candidates : list candidate) :
  (List.length (successes required_skills required_experience candidates)
   <= List.length candidates)%nat.
Proof.
  induction candidates as [|c rest IH]; [reflexivity|].
  cbn [successes flat_map]. rewrite length_app.
  fold (successes required_skills required_experience rest).
  destruct (score_candidate required_skills required_experience c);
    cbn [List.length]; lia.
Qed.

Lemma successes_skip (required_skills : list pyval)
    (required_experience : string) (l1 l2 : list candidate) (c : candidate)
    (e : exn) :
  score_candidate required_skills required_experience c = Raise e ->
  successes required_skills required_experience (l1 ++ c :: l2) =
  successes required_skills required_experience (l1 ++ l2).
Proof.
  intros Hraise. unfold successes.
  rewrite !flat_map_app. cbn [flat_map]. rewrite Hraise. reflexivity.
Qed.

(** What [recommend_candidates] returns, by the outcome of the parser. *)
Lemma recommend_candidates_eq (jd : job_description)
    (candidates : list candidate) (top_k : Z) :
  recommend_candidates jd candidates top_k = [] \/
  exists (required_skills : list pyval) (required_experience : string),
    forall (pool : list candidate) (k : Z),
      recommend_candidates jd pool k =
      slice_to
        (sort_desc (successes required_skills required_experience pool)) k.
Proof.
  unfold recommend_candidates.
  destruct (match parsed_requirements jd with
            | Some parsed => Ok parsed
            | None =>
                parse_job_description (get_or (description_text jd) "")
                  (get_or (title jd) "")
            end) as [parsed|e]; cbn [bind try_except].
  - right. eexists; eexists. intros pool k.
    rewrite collect_successes. reflexivity.
  - left. reflexivity.
Qed.

Lemma recommend_candidates_length (jd : job_description)
    (candidates : list candidate) (top_k : Z) :
  (List.length (recommend_candidates jd candidates top_k)
   <= List.length candidates)%nat.
Proof.
  destruct (recommend_candidates_eq jd candidates top_k)
    as [-> | (rs & re & Heq)]; [cbn; lia|].
  rewrite Heq.
  pose proof (slice_to_length (sort_desc (successes rs re candidates)) top_k).
  rewrite sort_desc_length in *.
  pose proof (successes_length rs re candidates). lia.
Qed.

Lemma recommend_candidates_nat (jd : job_description)
    (candidates : list candidate) (k : nat) :
  (List.length (recommend_candidates jd candidates (Z.of_nat k)) <= k)%nat.
Proof.
  destruct (recommend_candidates_eq jd candidates (Z.of_nat k))
    as [-> | (rs & re & Heq)]; [cbn; lia|].
  rewrite Heq, slice_to_nat, length_firstn. lia.
Qed.

(** C10: a candidate on which the body of the inner [try] raises gives
    no entry: the result is the one of the pool without that candidate,
    so nothing in it tells that a candidate failed; and when [top_k] is
    at least the size of the pool the result is shorter than
    [min(top_k, pool size)]. *)
Theorem failing_candidate_is_skipped (jd : job_description)
    (l1 l2 : list candidate) (c : candidate) (top_k : Z) (e : exn) :
  (forall required_skills required_experience,
     score_candidate required_skills required_experience c = Raise e) ->
  (Z.of_nat (List.length (l1 ++ c :: l2)) <= top_k)%Z ->
  recommend_candidates jd (l1 ++ c :: l2) top_k =
    recommend_candidates jd (l1 ++ l2) top_k /\
  (List.length (recommend_candidates jd (l1 ++ c :: l2) top_k) <
   Nat.min (Z.to_nat top_k) (List.length (l1 ++ c :: l2)))%nat.
Proof.
  intros Hraise Hk.
  assert (Hsame : recommend_candidates jd (l1 ++ c :: l2) top_k =
                  recommend_candidates jd (l1 ++ l2) top_k).
  { destruct (recommend_candidates_eq jd (l1 ++ l2) top_k)
      as [Hnil | (rs & re & Heq)].
    - unfold recommend_candidates in *.
      destruct (match parsed_requirements jd with
                | Some parsed => Ok parsed
                | None =>
                    parse_job_description (get_or (description_text jd) "")
                      (get_or (title jd) "")
                end) as [parsed|e']; cbn [bind try_except] in *;
        [|reflexivity].
      rewrite !collect_successes.
      rewrite (successes_skip _ _ l1 l2 c e (Hraise _ _)). reflexivity.
    - rewrite !Heq.
      rewrite (successes_skip _ _ l1 l2 c e (Hraise _ _)). reflexivity. }
  split; [exact Hsame|].
  rewrite Hsame.
  pose proof (recommend_candidates_length jd (l1 ++ l2) top_k) as Hlen.
  rewrite !length_app in *. cbn [List.length] in *. lia.
Qed.

End Ranking.

(** The pool [{'id': 1}], [{'id': 2, 'enrollments': None}], [{'id': 3}]
    with [top_k = 10]: the second record raises and two entries come
    back. *)
Lemma failing_candidate_is_skipped_witness :
  Recommender.recommend_candidates (H := ascii_text)
    (H0 := Recommender.sample_data) Examples.junior_job
    ([Recommender.Bare 1] ++ Recommender.Broken 2 :: [Recommender.Bare 3]) 10 =
  Recommender.recommend_candidates (H := ascii_text)
    (H0 := Recommender.sample_data) Examples.junior_job
    ([Recommender.Bare 1] ++ [Recommender.Bare 3]) 10 /\
  (List.length
     (Recommender.recommend_candidates (H := ascii_text)
        (H0 := Recommender.sample_data) Examples.junior_job
        ([Recommender.Bare 1] ++ Recommender.Broken 2 :: [Recommender.Bare 3])
        10) <
   Nat.min (Z.to_nat 10)
     (List.length
        ([Recommender.Bare 1] ++ Recommender.Broken 2 :: [Recommender.Bare 3])))%nat.
Proof.
  apply (failing_candidate_is_skipped (H := ascii_text)
           (H0 := Recommender.sample_data) Examples.junior_job
           [Recommender.Bare 1] [Recommender.Bare 3] (Recommender.Broken 2)
           10 TypeError).
  - intros required_skills required_experience. reflexivity.
  - vm_compute. discriminate.
Defined.

(** C3, at a negative [top_k]: three candidates and [top_k = -1] give
    the first two entries of the ranking, not the empty list. For
    [top_k = 0] the result is empty and for a positive [top_k] it has at
    most [top_k] entries. *)
Theorem negative_top_k_not_empty :
  map Recommender.candidate_id
    (Recommender.recommend_candidates (H := ascii_text)
       (H0 := Recommender.sample_data) Examples.junior_job
       [Recommender.Bare 1; Recommender.Bare 2; Recommender.Bare 3] (-1)) =
    [PyInt 1; PyInt 2] /\
  (forall (T : PyText) (candidate : Type)
          (D : Recommender.CandidateData candidate)
          (jd : Recommender.job_description) (pool : list candidate)
          (k : nat),
     (List.length (Recommender.recommend_candidates jd pool (Z.of_nat k))
      <= k)%nat).
Proof.
  split; [vm_compute; reflexivity|].
  intros T candidate D jd pool k. apply recommend_candidates_nat.
Qed.

(** * More of the code *)

Section RoundingBounds.

Local Open Scope Q_scope.

Lemma round_half_even_bounds (x : Q) (a b : Z) :
  inject_Z a <= x -> x <= inject_Z b ->
  (a <= round_half_even x <= b)%Z.
Proof.
  intros Ha Hb.
  pose proof (Qfloor_le x) as Hfl.
  pose proof (Qlt_floor x) as Hfu.
  assert (Hfa : (a <= Qfloor x)%Z).
  { rewrite <- (Qfloor_Z a). apply Qfloor_resp_le. exact Ha. }
  assert (Hfb : (Qfloor x <= b)%Z).
  { rewrite <- (Qfloor_Z b). apply Qfloor_resp_le. exact Hb. }
  unfold round_half_even. cbv zeta.
  destruct (Qcompare_spec (x - inject_Z (Qfloor x)) (1 # 2)) as [He|Hl|Hg].
  - destruct (Z.even (Qfloor x)); [lia|].
    assert (Hlt : inject_Z (Qfloor x) < inject_Z b) by lra.
    rewrite <- Zlt_Qlt in Hlt. lia.
  - lia.
  - assert (Hlt : inject_Z (Qfloor x) < inject_Z b) by lra.
    rewrite <- Zlt_Qlt in Hlt. lia.
Qed.

Lemma Qdiv_100 (x : Q) : x / 100 == x * (1 # 100).
Proof. reflexivity. Qed.

Lemma Qdiv_10 (x : Q) : x / 10 == x * (1 # 10).
Proof. reflexivity. Qed.

Lemma round2_bounds (x : Q) (a b : Z) :
  inject_Z a / 100 <= x -> x <= inject_Z b / 100 ->
  inject_Z a / 100 <= round2 x /\ round2 x <= inject_Z b / 100.
Proof.
  intros Ha Hb.
  assert (Hr : (a <= round_half_even (x * 100) <= b)%Z).
  { rewrite Qdiv_100 in Ha, Hb. apply round_half_even_bounds; lra. }
  destruct Hr as [Hra Hrb].
  rewrite Zle_Qle in Hra, Hrb.
  unfold round2. rewrite !Qdiv_100. split; lra.
Qed.



End RoundingBounds.

Section Engagement.

Import LeadFeatures.
Local Open Scope Q_scope.


Lemma filter_existsb {A : Type} (p : A -> bool) (l : list A) :
  existsb p l = match List.filter p l with [] => false | _ :: _ => true end.
Proof.
  induction l as [|x rest IH]; [reflexivity|].
  cbn [existsb List.filter]. destruct (p x); [reflexivity | exact IH].
Qed.




Lemma remove_dups_length_pos (x : pyval) (l : list pyval) :
  (1 <= List.length (remove_dups (x :: l)))%nat.
Proof.
  revert x. induction l as [|y rest IH]; intros x.
  - cbn [remove_dups]. destruct (decide_rel elem_of x []) as [Hin|_];
      [apply elem_of_nil in Hin; destruct Hin | cbn [List.length]; lia].
  - change (remove_dups (x :: y :: rest)) with
      (if decide_rel elem_of x (y :: rest) then remove_dups (y :: rest)
       else x :: remove_dups (y :: rest)).
    destruct (decide_rel elem_of x (y :: rest)); [apply IH|].
    cbn [List.length]. lia.
Qed.

(** X3: [_calculate_website_activity] is 0 when the lead viewed no page and
    between 0.1 and 1 when it viewed one. *)
Theorem website_activity_range (interactions : list activity) :
  let s := _calculate_website_activity interactions in
  (existsb (has_type "view_page") interactions = false /\ s = 0) \/
  (existsb (has_type "view_page") interactions = true /\ 0.1 <= s /\ s <= 1).
Proof.
  cbv zeta. unfold _calculate_website_activity.
  rewrite filter_existsb.
  destruct (List.filter (has_type "view_page") interactions)
    as [|x rest]; [left; split; reflexivity|].
  right. split; [reflexivity|].
  pose proof (remove_dups_length_pos (page_of x) (map page_of rest)) as Hu.
  change (page_of x :: map page_of rest) with (map page_of (x :: rest)) in Hu.
  set (u := List.length (remove_dups (map page_of (x :: rest)))) in *.
  set (t := List.length (x :: rest)).
  assert (Ht : (1 <= t)%nat) by (subst t; cbn; lia).
  unfold len. fold u t.
  assert (Hu' : 1 <= inject_Z (Z.of_nat u)).
  { change 1 with (inject_Z 1). rewrite <- Zle_Qle. lia. }
  assert (Ht' : 1 <= inject_Z (Z.of_nat t)).
  { change 1 with (inject_Z 1). rewrite <- Zle_Qle. lia. }
  pose proof (Qdiv_10 (inject_Z (Z.of_nat u) * 0.6 +
                       inject_Z (Z.of_nat t) * 0.4)) as Hshare.
  set (share := _ / 10) in *. clearbody share.
  unfold py_min.
  destruct (Qle_bool share 1) eqn:E;
    [apply Qle_bool_iff in E | apply Qle_bool_false in E]; split; lra.
Qed.

End Engagement.

Section SourceCode.

Import LeadFeatures.
Context `{PyText}.

(** X4: [_encode_source] maps every source string to a code from 1 to 5,
    and the code is 4 or more, which earns the demographic bonus,
    exactly for the four sources website, social_media, referral and
    organic_search, in any letter case [lower] folds. *)
Theorem encode_source_range (source : string) :
  exists n : Z,
    _encode_source (PyStr source) = Ok n /\
    1 <= n <= 5 /\
    (4 <=? n) =
      existsb (String.eqb (lower source))
        ["website"; "social_media"; "referral"; "organic_search"].
Proof.
  unfold _encode_source. cbn [py_lower bind].
  eexists; split; [reflexivity|].
  generalize (lower source) as s. intros s. unfold existsb.
  destruct (String.eqb_spec s "website") as [->|N1]; [vm_compute; intuition discriminate|].
  destruct (String.eqb_spec s "social_media") as [->|N2]; [vm_compute; intuition discriminate|].
  destruct (String.eqb_spec s "referral") as [->|N3]; [vm_compute; intuition discriminate|].
  destruct (String.eqb_spec s "organic_search") as [->|N4]; [vm_compute; intuition discriminate|].
  destruct (String.eqb_spec s "email_campaign") as [->|N5]; [vm_compute; intuition discriminate|].
  destruct (String.eqb_spec s "paid_ads") as [->|N6]; [vm_compute; intuition discriminate|].
  destruct (String.eqb_spec s "direct") as [->|N7]; [vm_compute; intuition discriminate|].
  destruct (String.eqb_spec s "unknown") as [->|N8]; [vm_compute; intuition discriminate|].
  unfold source_mapping.
  rewrite !lookup_insert_ne, lookup_singleton_ne by congruence.
  cbn. intuition lia.
Qed.

End SourceCode.

Section FeatureScore.

Import LeadScorer LeadFeatures.
Local Open Scope Q_scope.

Lemma demographic_score_range (features : lead_features) :
  0 <= demographic_score features /\ demographic_score features <= 1.
Proof.
  unfold demographic_score. cbv zeta.
  destruct (negb _), (4 <=? _)%Z, (0 <? _)%Z; split; lra.
Qed.

Lemma rule_based_score_le_1 (w : weights) (features : lead_features) :
  _calculate_rule_based_score w features <= 1.
Proof.
  unfold _calculate_rule_based_score, py_min. qle_cases; lra.
Qed.

(** X5: with the default weights and the four engagement scores between 0
    and 1, [_calculate_rule_based_score] is the weighted sum itself,
    between 0 and 1: the cap never applies. *)
Theorem rule_based_score_range (features : lead_features) :
  0 <= get_or (email_engagement_score features) 0 <= 1 ->
  0 <= get_or (website_activity_score features) 0 <= 1 ->
  0 <= get_or (interaction_frequency features) 0 <= 1 ->
  0 <= get_or (content_engagement_score features) 0 <= 1 ->
  _calculate_rule_based_score default_weights features ==
    weighted_sum default_weights features /\
  0 <= _calculate_rule_based_score default_weights features /\
  _calculate_rule_based_score default_weights features <= 1.
Proof.
  intros He Hw Hf Hc.
  pose proof (demographic_score_range features) as Hd.
  unfold _calculate_rule_based_score, py_min, weighted_sum, default_weights.
  cbv zeta.
  cbn [w_email_engagement w_website_activity w_demographic_fit
       w_interaction_frequency w_content_engagement].
  set (e := get_or (email_engagement_score features) 0) in *.
  set (v := get_or (website_activity_score features) 0) in *.
  set (q := get_or (interaction_frequency features) 0) in *.
  set (c := get_or (content_engagement_score features) 0) in *.
  set (d := demographic_score features) in *.
  clearbody e v q c d.
  qle_cases; repeat split; lra.
Qed.

Lemma final_score_range (ml_score rule_based_score : Q) :
  0 <= final_score ml_score rule_based_score /\
  final_score ml_score rule_based_score <= 100.
Proof.
  unfold final_score, py_max, py_min.
  set (x := (ml_score * 0.7 + rule_based_score * 0.3) * 100).
  clearbody x.
  destruct (Qle_bool 100 x) eqn:E100;
    [apply Qle_bool_iff in E100 | apply Qle_bool_false in E100];
    qle_cases; split; lra.
Qed.

Lemma final_score_without_model (rule_based_score : Q) :
  rule_based_score <= 1 -> final_score 0.5 rule_based_score <= 65.
Proof.
  intros Hr. unfold final_score, py_max, py_min.
  set (x := (0.5 * 0.7 + rule_based_score * 0.3) * 100).
  assert (Hx : x <= 65) by (subst x; lra). clearbody x.
  destruct (Qle_bool 100 x) eqn:E100;
    [apply Qle_bool_iff in E100 | apply Qle_bool_false in E100];
    qle_cases; lra.
Qed.

Context {lead : Type} `{LeadData lead}.

(** X6: the score [calculate_lead_score] reports lies between 0 and 100,
    whatever the lead record, the weights and the model are, the
    answer of the handler included. *)
Theorem calculate_lead_score_range (w : weights) (lead_data : lead) :
  0 <= ls_lead_score (calculate_lead_score w lead_data) /\
  ls_lead_score (calculate_lead_score w lead_data) <= 100.
Proof.
  unfold calculate_lead_score.
  destruct (extract_features lead_data) as [features|e];
    cbn [bind try_except ls_lead_score]; [|split; lra].
  match goal with
  | |- context [round2 (final_score ?m ?r)] =>
      pose proof (final_score_range m r) as [Hlo Hhi];
      pose proof (round2_bounds (final_score m r) 0 10000) as Hb
  end.
  rewrite !Qdiv_100 in Hb. unfold inject_Z in Hb.
  destruct Hb as [Hb1 Hb2]; [lra | lra | split; lra].
Qed.

(** X7: without a loaded model no lead is rated hot: the reported score is
    at most 65, whatever the lead record and the weights are. *)
Theorem no_model_no_hot_lead (w : weights) (lead_data : lead) :
  model = None ->
  ls_lead_score (calculate_lead_score w lead_data) <= 65 /\
  ls_quality (calculate_lead_score w lead_data) <> "hot".
Proof.
  intros Hmodel. unfold calculate_lead_score. rewrite Hmodel.
  destruct (extract_features lead_data) as [features|e];
    cbn [bind try_except ls_lead_score ls_quality];
    [|split; [lra | discriminate]].
  pose proof (rule_based_score_le_1 w features) as Hr.
  pose proof (final_score_without_model _ Hr) as Hhi.
  pose proof (final_score_range 0.5 (_calculate_rule_based_score w features))
    as [Hlo _].
  set (final := final_score 0.5 (_calculate_rule_based_score w features)) in *.
  clearbody final. split.
  - pose proof (round2_bounds final 0 6500) as Hb.
    rewrite !Qdiv_100 in Hb. unfold inject_Z in Hb.
    destruct Hb as [Hb1 Hb2]; lra.
  - unfold _determine_lead_quality.
    destruct (Qle_bool 80 final) eqn:E80;
      [apply Qle_bool_iff in E80; lra|].
    qle_cases; discriminate.
Qed.

End FeatureScore.

Lemma rule_based_score_range_witness :
  (LeadFeatures._calculate_rule_based_score LeadFeatures.default_weights
     MoreExamples.engaged_features ==
   LeadFeatures.weighted_sum LeadFeatures.default_weights
     MoreExamples.engaged_features)%Q /\
  (0 <= LeadFeatures._calculate_rule_based_score LeadFeatures.default_weights
          MoreExamples.engaged_features)%Q /\
  (LeadFeatures._calculate_rule_based_score LeadFeatures.default_weights
     MoreExamples.engaged_features <= 1)%Q.
Proof.
  apply (rule_based_score_range MoreExamples.engaged_features);
    split; vm_compute; discriminate.
Defined.

Lemma no_model_no_hot_lead_witness :
  (LeadFeatures.ls_lead_score
     (LeadFeatures.calculate_lead_score (H := MoreExamples.no_model)
        LeadFeatures.default_weights MoreExamples.EngagedLead) <= 65)%Q /\
  LeadFeatures.ls_quality
    (LeadFeatures.calculate_lead_score (H := MoreExamples.no_model)
       LeadFeatures.default_weights MoreExamples.EngagedLead) <> "hot".
Proof.
  apply (no_model_no_hot_lead (H := MoreExamples.no_model)
           LeadFeatures.default_weights MoreExamples.EngagedLead).
  reflexivity.
Defined.

Section ReportedScore.

Import LeadScorer LeadFeatures.
Local Open Scope Q_scope.

(** X8: the tier is taken from the score before rounding and the reported
    score after it: a blend from 79.995 up to 80 is reported as 80.00
    with the tier warm. *)
Theorem rounded_score_above_its_tier (ml_score rule_based_score : Q) :
  79.995 <= final_score ml_score rule_based_score ->
  final_score ml_score rule_based_score < 80 ->
  reported_lead_score ml_score rule_based_score == 80 /\
  _determine_lead_quality (final_score ml_score rule_based_score) = "warm".
Proof.
  intros Hlo Hhi. unfold reported_lead_score.
  set (final := final_score ml_score rule_based_score) in *.
  clearbody final. split.
  - assert (Hr : round_half_even (final * 100) = 8000%Z).
    { unfold round_half_even. cbv zeta.
      pose proof (Qfloor_le (final * 100)) as Hfl.
      pose proof (Qlt_floor (final * 100)) as Hfu.
      assert (Hf : Qfloor (final * 100) = 7999%Z).
      { assert (H1 : inject_Z 7999 < inject_Z (Qfloor (final * 100) + 1)).
        { change (inject_Z 7999) with 7999. lra. }
        assert (H2 : inject_Z (Qfloor (final * 100)) < inject_Z 8000).
        { change (inject_Z 8000) with 8000. lra. }
        rewrite <- Zlt_Qlt in H1, H2. lia. }
      rewrite Hf.
      destruct (Qcompare_spec (final * 100 - inject_Z 7999) (1 # 2))
        as [He|Hl|Hg]; [reflexivity | | reflexivity].
      change (inject_Z 7999) with 7999 in Hl. lra. }
    unfold round2. rewrite Hr. reflexivity.
  - unfold _determine_lead_quality.
    destruct (Qle_bool 80 final) eqn:E80;
      [apply Qle_bool_iff in E80; lra|].
    destruct (Qle_bool 60 final) eqn:E60; [reflexivity|].
    apply Qle_bool_false in E60. lra.
Qed.

(** X9: what [_generate_recommendations] says about the score: the
    nurturing advice is given exactly below 40 and the advice to
    prioritize exactly above 70, so a hot lead always gets the second
    and a cold or very cold one the first; at most five pieces of
    advice come back. *)
Theorem recommendations_follow_score (features : lead_features) (score : Q) :
  (In nurture (_generate_recommendations features score) <-> score < 40) /\
  (In prioritize (_generate_recommendations features score) <-> 70 < score) /\
  (List.length (_generate_recommendations features score) <= 5)%nat.
Proof.
  unfold _generate_recommendations, Qlt_bool. cbv zeta.
  destruct (negb (Qle_bool 0.3 _)), (negb (Qle_bool 0.3 _)), (_ <? 3)%Z,
    (_ =? 0)%Z;
    (destruct (Qle_bool 40 score) eqn:E40;
       [apply Qle_bool_iff in E40 | apply Qle_bool_false in E40]);
    (destruct (Qle_bool score 70) eqn:E70;
       [apply Qle_bool_iff in E70 | apply Qle_bool_false in E70]);
    cbn [negb append app In List.length];
    (split; [|split; [|lia]]);
    (split; [intros Hin | intros Hs]);
    try lra;
    repeat (destruct Hin as [Hin|Hin]; [try discriminate Hin; try lra|]);
    try contradiction; tauto.
Qed.

End ReportedScore.

Lemma rounded_score_above_its_tier_witness :
  (LeadScorer.reported_lead_score 1 0.3332 == 80)%Q /\
  LeadScorer._determine_lead_quality (LeadScorer.final_score 1 0.3332)
    = "warm".
Proof.
  apply (rounded_score_above_its_tier 1 0.3332%Q); vm_compute;
    [discriminate | reflexivity].
Defined.

Section RouteById.

Import LeadScorer LeadRoutes Spec.
Context `{PyText}.

(** X10: when the loop of [score_lead] raises, [score_lead_by_id] does not
    answer with the record of the handler: that record has no
    [total_interactions], reading it fails and the route answers 500,
    after it has handed the score 0 to the database update. *)
Theorem score_lead_by_id_error (i : interaction) (rest : list interaction)
    (e : exn) :
  score_interactions start (i :: rest) = Raise e ->
  score_lead_by_id (i :: rest) = (Http500, Some 0).
Proof.
  intros Hraise. unfold score_lead_by_id, score_lead.
  rewrite Hraise. reflexivity.
Qed.

(** X11: on events of the data model [score_lead_by_id] answers 200: for no
    event at all the fixed answer with the label unqualified and no
    database update, otherwise the sum of the contributions, its tier,
    the flag, the trace and the number of events, the same sum going
    to the database. *)
Theorem score_lead_by_id_events (events : list event) :
  score_lead_by_id (map to_interaction events) =
  match events with
  | [] =>
      (Http200 {| r_lead_score := 0;
                  r_quality := "unqualified";
                  r_needs_human_intervention := false;
                  r_interaction_details := ["No interactions found"];
                  r_total_interactions := 0 |},
       None)
  | _ :: _ =>
      (Http200 {| r_lead_score := sum_contributions events;
                  r_quality :=
                    _determine_lead_quality
                      (inject_Z (sum_contributions events));
                  r_needs_human_intervention :=
                    existsb negative_message events;
                  r_interaction_details := flat_map event_trace events;
                  r_total_interactions := List.length events |},
       Some (sum_contributions events))
  end.
Proof.
  destruct events as [|e rest]; [reflexivity|].
  unfold score_lead_by_id.
  change (map to_interaction (e :: rest)) with
    (to_interaction e :: map to_interaction rest) at 1.
  cbv iota.
  change (to_interaction e :: map to_interaction rest) with
    (map to_interaction (e :: rest)).
  rewrite score_lead_events.
  cbn [total_interactions lead_score quality escalate trace].
  rewrite length_map. reflexivity.
Qed.

Lemma sum_contributions_perm (events events' : list event) :
  Permutation events events' ->
  sum_contributions events = sum_contributions events'.
Proof.
  induction 1 as [|x l l' _ IH|x y l|l l' l'' _ IH1 _ IH2];
    cbn [sum_contributions fold_right]; try fold (sum_contributions l);
    try fold (sum_contributions l'); lia.
Qed.

Lemma existsb_perm {A : Type} (p : A -> bool) (l l' : list A) :
  Permutation l l' -> existsb p l = existsb p l'.
Proof.
  induction 1 as [|x l l' _ IH|x y l|l l' l'' _ IH1 _ IH2];
    cbn [existsb]; [reflexivity | rewrite IH; reflexivity | | congruence].
  destruct (p x), (p y); reflexivity.
Qed.

(** X12: the score, the tier and the flag of [score_lead] do not depend on
    the order of the events; only the trace does. *)
Theorem score_independent_of_order (events events' : list event) :
  Permutation events events' ->
  lead_score (score_lead (map to_interaction events)) =
    lead_score (score_lead (map to_interaction events')) /\
  quality (score_lead (map to_interaction events)) =
    quality (score_lead (map to_interaction events')) /\
  escalate (score_lead (map to_interaction events)) =
    escalate (score_lead (map to_interaction events')).
Proof.
  intros Hperm. rewrite !score_lead_events.
  cbn [lead_score quality escalate].
  rewrite (sum_contributions_perm _ _ Hperm), (existsb_perm _ _ _ Hperm).
  repeat split; reflexivity.
Qed.

End RouteById.

Lemma score_lead_by_id_error_witness :
  LeadRoutes.score_lead_by_id (H := ascii_text)
    [ {| LeadScorer.i_type := Some (PyStr "page_visit");
         LeadScorer.i_content := None;
         LeadScorer.i_duration := None;
         LeadScorer.i_page_url := Some (PyStr "/pricing") |};
      {| LeadScorer.i_type := Some (PyStr "chat");
         LeadScorer.i_content := Some (PyStr "hello");
         LeadScorer.i_duration := None;
         LeadScorer.i_page_url := Some PyNone |} ] =
  (LeadRoutes.Http500, Some 0).
Proof.
  apply (score_lead_by_id_error (H := ascii_text) _ _ AttributeError).
  reflexivity.
Defined.

Lemma score_independent_of_order_witness :
  LeadScorer.lead_score
    (LeadScorer.score_lead (H := ascii_text)
       (map Spec.to_interaction Examples.pricing_python_form)) =
  LeadScorer.lead_score
    (LeadScorer.score_lead (H := ascii_text)
       (map Spec.to_interaction (rev Examples.pricing_python_form))) /\
  LeadScorer.quality
    (LeadScorer.score_lead (H := ascii_text)
       (map Spec.to_interaction Examples.pricing_python_form)) =
  LeadScorer.quality
    (LeadScorer.score_lead (H := ascii_text)
       (map Spec.to_interaction (rev Examples.pricing_python_form))) /\
  LeadScorer.escalate
    (LeadScorer.score_lead (H := ascii_text)
       (map Spec.to_interaction Examples.pricing_python_form)) =
  LeadScorer.escalate
    (LeadScorer.score_lead (H := ascii_text)
       (map Spec.to_interaction (rev Examples.pricing_python_form))).
Proof.
  apply (score_independent_of_order (H := ascii_text)).
  apply Permutation_rev.
Defined.

Section ExperienceValues.

Import Recommender.

Lemma candidate_scores :
  get_or (exp_mapping !! "senior") 2 = 4 /\
  get_or (exp_mapping !! "mid_level") 2 = 3 /\
  get_or (exp_mapping !! "junior") 2 = 2 /\
  get_or (exp_mapping !! "entry_level") 2 = 1 /\
  get_or (exp_mapping !! "executive") 3 = 5.
Proof. repeat split; reflexivity. Qed.

(** X13: [calculate_experience_match] returns one of the four pairs 100
    excellent, 75 good, 50 fair, 25 poor; it never rates a candidate
    executive, so against an executive requirement the score is at
    most 75. *)
Theorem experience_match_values (f : features) (required : string) :
  In (em_score (calculate_experience_match f required),
      em_match_quality (calculate_experience_match f required))
     [(100, "excellent"); (75, "good"); (50, "fair"); (25, "poor")] /\
  em_candidate_level (calculate_experience_match f required) <> "executive" /\
  em_score (calculate_experience_match f "executive") <= 75.
Proof.
  destruct candidate_scores as (Hs & Hm & Hj & He & Hx).
  unfold calculate_experience_match. cbv zeta. rewrite Hx.
  generalize (get_or (exp_mapping !! required) 3) as rq. intros rq.
  destruct (Qle_bool 85 _ && (365 <=? _)); [rewrite Hs|];
    [|destruct (Qle_bool 70 _ && (180 <=? _)); [rewrite Hm|];
      [|destruct (Qle_bool 60 _); [rewrite Hj | rewrite He]]];
    match goal with
    | |- context [(rq <=? ?c)] =>
        destruct (rq <=? c);
        [|destruct (c =? rq - 1); [|destruct (c =? rq - 2)]]
    end;
    cbn; (split; [tauto | split; [discriminate | vm_compute; discriminate]]).
Qed.

End ExperienceValues.

Section SubScores.

Import Recommender Ranges.
Local Open Scope Q_scope.

Lemma performance_score_range (f : features) :
  normalized_features f ->
  0 <= calculate_performance_score f /\ calculate_performance_score f <= 100.
Proof.
  intros (Ht & Hc & Hk & Hs & _).
  unfold calculate_performance_score. cbv zeta. cbn [fold_left].
  pose proof (Qdiv_100 (get_or (avg_task_score f) 0)) as Hdiv.
  set (t := get_or (avg_task_score f) 0) in *.
  set (t100 := t / 100) in *. clearbody t100.
  split; lra.
Qed.

Lemma learning_potential_range (f : features) :
  normalized_features f ->
  0 <= calculate_learning_potential f /\ calculate_learning_potential f <= 100.
Proof.
  intros (_ & _ & _ & _ & Hi & Hv & He & Hr).
  unfold calculate_learning_potential. cbv zeta. cbn [fold_left].
  pose proof (Qdiv_10 (get_or (learning_velocity f) 0)) as Hdiv.
  set (v := get_or (learning_velocity f) 0) in *.
  set (v10 := v / 10) in *. clearbody v10.
  split; lra.
Qed.

Lemma cultural_fit_range (f : features) :
  normalized_features f ->
  70 <= calculate_cultural_fit f /\ calculate_cultural_fit f <= 90.
Proof.
  intros (_ & _ & _ & Hs & _ & _ & He & _).
  unfold calculate_cultural_fit, py_min. cbv zeta.
  qle_cases; split; lra.
Qed.

(** X14: on features in the ranges [extract_candidate_features] keeps, the
    performance score and the learning potential lie between 0 and 100
    and the cultural fit between 70 and 90, so its cap at 100 never
    applies. *)
Theorem sub_scores_in_range (f : features) :
  normalized_features f ->
  (0 <= calculate_performance_score f /\
   calculate_performance_score f <= 100) /\
  (0 <= calculate_learning_potential f /\
   calculate_learning_potential f <= 100) /\
  (70 <= calculate_cultural_fit f /\ calculate_cultural_fit f <= 90).
Proof.
  intros Hn. split; [|split].
  - apply performance_score_range, Hn.
  - apply learning_potential_range, Hn.
  - apply cultural_fit_range, Hn.
Qed.

End SubScores.

Lemma sub_scores_in_range_witness :
  ((0 <= Recommender.calculate_performance_score Recommender.bare_features /\
    Recommender.calculate_performance_score Recommender.bare_features <= 100)
   /\
   (0 <= Recommender.calculate_learning_potential Recommender.bare_features /\
    Recommender.calculate_learning_potential Recommender.bare_features <= 100)
   /\
   (70 <= Recommender.calculate_cultural_fit Recommender.bare_features /\
    Recommender.calculate_cultural_fit Recommender.bare_features <= 90))%Q.
Proof.
  apply (sub_scores_in_range Recommender.bare_features).
  unfold Ranges.normalized_features. cbn.
  repeat split; vm_compute; discriminate.
Defined.

Section SkillRange.

Import Recommender Spec Ranges.
Local Open Scope Q_scope.

Lemma inject_nat_nonneg (n : nat) : 0 <= inject_Z (Z.of_nat n).
Proof. change 0 with (inject_Z 0). rewrite <- Zle_Qle. lia. Qed.

Lemma inject_nat_succ (n : nat) :
  inject_Z (Z.of_nat (S n)) == 1 + inject_Z (Z.of_nat n).
Proof. rewrite Nat2Z.inj_succ, <- Z.add_1_l, inject_Z_plus. reflexivity. Qed.

Lemma sum_bounds (lo hi : Q) (l : list Q) :
  Forall (fun x => lo <= x /\ x <= hi) l ->
  inject_Z (Z.of_nat (List.length l)) * lo <= fold_right Qplus 0 l /\
  fold_right Qplus 0 l <= inject_Z (Z.of_nat (List.length l)) * hi.
Proof.
  induction 1 as [|x rest [Hlo Hhi] _ [IHlo IHhi]].
  - cbn [List.length fold_right].
    change (inject_Z (Z.of_nat 0)) with 0. split; lra.
  - cbn [List.length fold_right].
    pose proof (inject_nat_succ (List.length rest)) as Hs.
    set (n := inject_Z (Z.of_nat (List.length rest))) in *.
    set (n1 := inject_Z (Z.of_nat (S (List.length rest)))) in *.
    clearbody n n1. split; nra.
Qed.

Lemma mean_bounds (lo hi : Q) (x : Q) (rest : list Q) :
  Forall (fun x => lo <= x /\ x <= hi) (x :: rest) ->
  lo <= mean (x :: rest) /\ mean (x :: rest) <= hi.
Proof.
  intros Hall. destruct (sum_bounds lo hi _ Hall) as [Hlo Hhi].
  unfold mean.
  assert (Hpos : 0 < inject_Z (Z.of_nat (List.length (x :: rest)))).
  { change 0 with (inject_Z 0). rewrite <- Zlt_Qlt. cbn [List.length]. lia. }
  split.
  - apply Qle_shift_div_l; [exact Hpos|]. lra.
  - apply Qle_shift_div_r; [exact Hpos|]. lra.
Qed.

Context `{PyText}.

Lemma matched_scores_percent (vector : gmap string Q)
    (required : list string) :
  percent_scores vector ->
  Forall (fun x => 0 <= x /\ x <= 100) (matched_scores vector required).
Proof.
  intros Hv. unfold matched_scores.
  induction required as [|skill rest IH]; [constructor|].
  cbn [omap list_omap].
  destruct (vector !! normalized skill) as [score|] eqn:E; [|exact IH].
  constructor; [|exact IH].
  exact (map_Forall_lookup_1 _ _ _ _ Hv E).
Qed.

Lemma match_rate_range (vector : gmap string Q) (skill : string)
    (rest : list string) :
  0 <= match_rate vector (skill :: rest) /\
  match_rate vector (skill :: rest) <= 1.
Proof.
  unfold match_rate.
  assert (Hle : (List.length (List.filter (present vector) (skill :: rest))
                 <= List.length (skill :: rest))%nat).
  { apply filter_length_le. }
  assert (Hpos : 0 < inject_Z (Z.of_nat (List.length (skill :: rest)))).
  { change 0 with (inject_Z 0). rewrite <- Zlt_Qlt. cbn [List.length]. lia. }
  pose proof (inject_nat_nonneg
                (List.length (List.filter (present vector) (skill :: rest)))).
  assert (Hq : inject_Z (Z.of_nat (List.length
                 (List.filter (present vector) (skill :: rest)))) <=
               inject_Z (Z.of_nat (List.length (skill :: rest)))).
  { rewrite <- Zle_Qle. lia. }
  split.
  - apply Qle_shift_div_l; [exact Hpos|]. lra.
  - apply Qle_shift_div_r; [exact Hpos|]. lra.
Qed.

Lemma skill_formula_range (vector : gmap string Q) (skill : string)
    (rest : list string) :
  percent_scores vector ->
  0 <= skill_formula vector (skill :: rest) /\
  skill_formula vector (skill :: rest) <= 100.
Proof.
  intros Hv.
  destruct (match_rate_range vector skill rest) as [Hr0 Hr1].
  assert (Ha : 0 <= avg_matched_score vector (skill :: rest) /\
               avg_matched_score vector (skill :: rest) <= 100).
  { unfold avg_matched_score.
    pose proof (matched_scores_percent vector (skill :: rest) Hv) as Hall.
    destruct (matched_scores vector (skill :: rest)) as [|x xs];
      [split; lra|].
    apply mean_bounds. exact Hall. }
  destruct Ha as [Ha0 Ha1].
  unfold skill_formula.
  pose proof (Qdiv_100 (avg_matched_score vector (skill :: rest))) as Hdiv.
  set (a := avg_matched_score vector (skill :: rest)) in *.
  set (a100 := a / 100) in *.
  set (r := match_rate vector (skill :: rest)) in *.
  clearbody a a100 r. split; lra.
Qed.

(** The record [calculate_skill_match_score] returns for a non-empty
    list of skill names. *)
Lemma skill_match_strings_record (vector : gmap string Q) (skill : string)
    (rest : list string) :
  exists (rate avg : Q),
    calculate_skill_match_score vector (map PyStr (skill :: rest)) =
    Ok {| sm_score := round2 (skill_formula vector (skill :: rest));
          sm_match_rate := Some rate;
          sm_avg_skill_score := Some avg;
          sm_matched_skills := matched_entries vector (skill :: rest);
          sm_missing_skills := missing_entries vector (skill :: rest) |}.
Proof.
  unfold calculate_skill_match_score.
  change (map PyStr (skill :: rest)) with (PyStr skill :: map PyStr rest) at 1.
  cbv iota. rewrite match_skills_strings. cbn [bind].
  cbn [sm_score matched_skills missing_skills skill_scores app].
  eexists; eexists. f_equal. f_equal.
  unfold skill_formula, match_rate, avg_matched_score.
  rewrite matched_entries_length, length_map. reflexivity.
Qed.

Lemma match_skills_ok_strings (vector : gmap string Q)
    (required_skills : list pyval) (st st' : skill_tally) :
  match_skills vector required_skills st = Ok st' ->
  exists names : list string, required_skills = map PyStr names.
Proof.
  revert st. induction required_skills as [|skill rest IH]; intros st Hok.
  - exists []. reflexivity.
  - cbn [match_skills] in Hok.
    destruct skill as [|name|n]; try discriminate Hok.
    cbn [normalize_skill py_lower bind] in Hok.
    destruct (vector !! replace_space (lower name));
      apply IH in Hok as [names ->]; exists (name :: names); reflexivity.
Qed.

Lemma skill_match_ok_strings (vector : gmap string Q)
    (required_skills : list pyval) (sm : skill_match) :
  calculate_skill_match_score vector required_skills = Ok sm ->
  exists names : list string, required_skills = map PyStr names.
Proof.
  unfold calculate_skill_match_score.
  destruct required_skills as [|skill rest]; [exists []; reflexivity|].
  destruct (match_skills vector (skill :: rest) _) as [st|e] eqn:E;
    [|discriminate].
  intros _. exact (match_skills_ok_strings _ _ _ _ E).
Qed.

Lemma entries_partition (vector : gmap string Q) (required : list string) :
  (List.length (matched_entries vector required) +
   List.length (missing_entries vector required))%nat =
  List.length required.
Proof.
  unfold matched_entries, missing_entries, present.
  induction required as [|skill rest IH]; [reflexivity|].
  cbn [omap list_omap List.filter map].
  destruct (vector !! normalized skill); cbn [negb map List.length] in *;
    rewrite ?length_map in *; lia.
Qed.

Lemma skill_score_percent (vector : gmap string Q)
    (required_skills : list pyval) (sm : skill_match) :
  percent_scores vector ->
  calculate_skill_match_score vector required_skills = Ok sm ->
  0 <= sm_score sm /\ sm_score sm <= 100.
Proof.
  intros Hv Hok.
  destruct (skill_match_ok_strings _ _ _ Hok) as [names ->].
  destruct names as [|skill rest].
  - cbn in Hok. injection Hok as <-. cbn. split; lra.
  - destruct (skill_match_strings_record vector skill rest)
      as (rate & avg & Heq).
    rewrite Heq in Hok. injection Hok as <-. cbn [sm_score].
    destruct (skill_formula_range vector skill rest Hv) as [Hlo Hhi].
    pose proof (round2_bounds (skill_formula vector (skill :: rest))
                  0 10000) as Hb.
    rewrite !Qdiv_100 in Hb.
    change (inject_Z 0) with 0 in Hb.
    change (inject_Z 10000) with 10000 in Hb.
    destruct Hb as [Hb1 Hb2]; [lra | lra | split; lra].
Qed.

(** X15: every required skill ends up in exactly one of the two lists of
    [calculate_skill_match_score], matched or missing, and on a
    competency vector with scores from 0 to 100 the skill score lies
    between 0 and 100. *)
Theorem skill_match_range (vector : gmap string Q)
    (required_skills : list pyval) (sm : skill_match) :
  percent_scores vector ->
  calculate_skill_match_score vector required_skills = Ok sm ->
  (0 <= sm_score sm /\ sm_score sm <= 100) /\
  (List.length (sm_matched_skills sm) + List.length (sm_missing_skills sm))%nat
    = (match required_skills with
       | [] => 0%nat
       | _ :: _ => List.length required_skills
       end).
Proof.
  intros Hv Hok. split; [exact (skill_score_percent _ _ _ Hv Hok)|].
  destruct (skill_match_ok_strings _ _ _ Hok) as [names ->].
  destruct names as [|skill rest].
  - cbn in Hok. injection Hok as <-. reflexivity.
  - destruct (skill_match_strings_record vector skill rest)
      as (rate & avg & Heq).
    rewrite Heq in Hok. injection Hok as <-.
    cbn [sm_matched_skills sm_missing_skills].
    change (map PyStr (skill :: rest)) with (PyStr skill :: map PyStr rest).
    cbv iota. cbn [List.length]. rewrite length_map.
    exact (entries_partition vector (skill :: rest)).
Qed.

End SkillRange.

Lemma skill_match_range_witness :
  exists sm : Recommender.skill_match,
    Recommender.calculate_skill_match_score (H := ascii_text)
      Examples.python_90 (map PyStr Examples.python_sql) = Ok sm /\
    ((0 <= Recommender.sm_score sm /\ Recommender.sm_score sm <= 100)%Q /\
     (List.length (Recommender.sm_matched_skills sm) +
      List.length (Recommender.sm_missing_skills sm))%nat = 2%nat).
Proof.
  eexists. split; [vm_compute; reflexivity|].
  apply (skill_match_range (H := ascii_text) Examples.python_90
           (map PyStr Examples.python_sql)).
  - unfold Ranges.percent_scores, Examples.python_90.
    apply map_Forall_singleton. split; vm_compute; discriminate.
  - vm_compute. reflexivity.
Defined.

Section OverallScore.

Import Recommender Spec Ranges.
Local Open Scope Q_scope.

Lemma em_score_between (f : features) (required : string) :
  (25 <= em_score (calculate_experience_match f required) <= 100)%Z.
Proof.
  unfold calculate_experience_match. cbv zeta.
  rewrite em_score_fst, step_shortfall. unfold step.
  repeat match goal with
  | |- context [(?a =? ?b)%Z] => destruct (a =? b)%Z
  end; lia.
Qed.

Context `{PyText} {candidate : Type} `{CandidateData candidate}.

(** X16: the overall score of a candidate whose features are in their ranges
    lies between 9.75 and 99.5: the experience match gives at least 25
    and the cultural fit between 70 and 90, so no candidate reaches 100
    and none falls to 0. *)
Theorem overall_score_range (required_skills : list pyval)
    (required_experience : string) (c : candidate) (f : features)
    (r : recommendation) :
  extract_candidate_features c = Ok f ->
  normalized_features f ->
  percent_scores (get_or (competency_vector f) ∅) ->
  score_candidate required_skills required_experience c = Ok r ->
  9.75 <= overall_score r /\ overall_score r <= 99.5.
Proof.
  intros Hex Hn Hv Hok. unfold score_candidate in Hok.
  rewrite Hex in Hok. cbn [bind] in Hok.
  destruct (calculate_skill_match_score _ required_skills) as [sm|e] eqn:Esm;
    [|discriminate Hok].
  cbn [bind] in Hok. injection Hok as <-. cbn [overall_score].
  destruct (skill_score_percent _ _ _ Hv Esm) as [Hs0 Hs1].
  destruct (performance_score_range f Hn) as [Hp0 Hp1].
  destruct (learning_potential_range f Hn) as [Hl0 Hl1].
  destruct (cultural_fit_range f Hn) as [Hc0 Hc1].
  destruct (em_score_between f required_experience) as [He0 He1].
  rewrite Zle_Qle in He0, He1.
  change (inject_Z 25) with 25 in He0. change (inject_Z 100) with 100 in He1.
  unfold weight_skill_match, weight_experience_match,
    weight_performance_score, weight_learning_potential, weight_cultural_fit.
  match goal with
  | |- _ <= round2 ?x /\ _ =>
      pose proof (round2_bounds x 975 9950) as Hb; set (overall := x) in *
  end.
  rewrite !Qdiv_100 in Hb.
  change (inject_Z 975) with 975 in Hb.
  change (inject_Z 9950) with 9950 in Hb.
  set (s := sm_score sm) in *.
  set (x := inject_Z (em_score (calculate_experience_match f required_experience))) in *.
  set (p := calculate_performance_score f) in *.
  set (l := calculate_learning_potential f) in *.
  set (k := calculate_cultural_fit f) in *.
  assert (Ho : overall == s * 0.35 + x * 0.25 + p * 0.20 + l * 0.15 + k * 0.05)
    by reflexivity.
  clearbody overall s x p l k.
  destruct Hb as [Hb1 Hb2]; [lra | lra | split; lra].
Qed.

End OverallScore.

Lemma overall_score_range_witness :
  exists r : Recommender.recommendation,
    Recommender.score_candidate (H := ascii_text)
      (H0 := Recommender.sample_data) (map PyStr Examples.python_sql)
      "junior" (Recommender.Bare 1) = Ok r /\
    (9.75 <= Recommender.overall_score r /\
     Recommender.overall_score r <= 99.5)%Q.
Proof.
  eexists. split; [vm_compute; reflexivity|].
  apply (overall_score_range (H := ascii_text)
           (H0 := Recommender.sample_data) (map PyStr Examples.python_sql)
           "junior" (Recommender.Bare 1) Recommender.bare_features).
  - reflexivity.
  - unfold Ranges.normalized_features. cbn.
    repeat split; vm_compute; discriminate.
  - apply map_Forall_empty.
  - vm_compute. reflexivity.
Defined.

Section SortedRanking.

Import Recommender Spec Ranges.
Local Open Scope Q_scope.

Lemma insert_desc_Forall (P : recommendation -> Prop) (r : recommendation)
    (l : list recommendation) :
  P r -> Forall P l -> Forall P (insert_desc r l).
Proof.
  intros Hr Hl. induction Hl as [|r' rest Hr' Hrest IH];
    cbn [insert_desc]; [repeat constructor; exact Hr|].
  destruct (Qle_bool (overall_score r') (overall_score r));
    repeat constructor; assumption.
Qed.

Lemma insert_desc_sorted (r : recommendation) (l : list recommendation) :
  StronglySorted ranked_before l ->
  StronglySorted ranked_before (insert_desc r l).
Proof.
  induction 1 as [|r' rest Hsorted IH Hall]; cbn [insert_desc].
  - repeat constructor.
  - destruct (Qle_bool (overall_score r') (overall_score r)) eqn:E.
    + apply Qle_bool_iff in E.
      constructor; [constructor; assumption|].
      constructor; [exact E|].
      eapply Forall_impl; [exact Hall|].
      cbv beta. unfold ranked_before. intros x Hx. lra.
    + apply Qle_bool_false in E.
      constructor; [exact IH|].
      apply insert_desc_Forall; [unfold ranked_before; lra | exact Hall].
Qed.

Lemma sort_desc_sorted (l : list recommendation) :
  StronglySorted ranked_before (sort_desc l).
Proof.
  induction l as [|r rest IH]; [constructor|].
  cbn [sort_desc fold_right]. apply insert_desc_sorted. exact IH.
Qed.

Lemma firstn_sorted (n : nat) (l : list recommendation) :
  StronglySorted ranked_before l ->
  StronglySorted ranked_before (firstn n l).
Proof.
  intros Hs. revert n. induction Hs as [|r rest Hsorted IH Hall]; intros n.
  - rewrite firstn_nil. constructor.
  - destruct n as [|n]; [constructor|]. cbn [firstn].
    constructor; [apply IH | apply Forall_take; exact Hall].
Qed.

Lemma insert_desc_perm (r : recommendation) (l : list recommendation) :
  Permutation (insert_desc r l) (r :: l).
Proof.
  induction l as [|r' rest IH]; cbn [insert_desc]; [reflexivity|].
  destruct (Qle_bool (overall_score r') (overall_score r)); [reflexivity|].
  rewrite IH. apply perm_swap.
Qed.

Lemma sort_desc_perm (l : list recommendation) : Permutation (sort_desc l) l.
Proof.
  induction l as [|r rest IH]; [reflexivity|].
  cbn [sort_desc fold_right]. fold (sort_desc rest).
  rewrite insert_desc_perm, IH. reflexivity.
Qed.

Lemma with_score_insert (q : Q) (r : recommendation)
    (l : list recommendation) :
  with_score q (insert_desc r l) = with_score q (r :: l).
Proof.
  unfold with_score.
  induction l as [|r' rest IH]; cbn [insert_desc]; [reflexivity|].
  destruct (Qle_bool (overall_score r') (overall_score r)) eqn:E;
    [reflexivity|].
  apply Qle_bool_false in E.
  cbn [List.filter] in *. rewrite IH.
  destruct (Qeq_bool (overall_score r) q) eqn:Er;
    destruct (Qeq_bool (overall_score r') q) eqn:Er'; try reflexivity.
  apply Qeq_bool_iff in Er, Er'. lra.
Qed.

Lemma with_score_sort (q : Q) (l : list recommendation) :
  with_score q (sort_desc l) = with_score q l.
Proof.
  induction l as [|r rest IH]; [reflexivity|].
  cbn [sort_desc fold_right]. fold (sort_desc rest).
  rewrite with_score_insert. unfold with_score in *.
  cbn [List.filter]. rewrite IH. reflexivity.
Qed.

Lemma slice_to_all {A : Type} (l : list A) (k : Z) :
  (Z.of_nat (List.length l) <= k)%Z -> slice_to l k = l.
Proof.
  intros Hk. unfold slice_to.
  destruct (Z.ltb_spec k 0); [lia|].
  apply firstn_all2. lia.
Qed.

Context `{PyText} {candidate : Type} `{CandidateData candidate}.

(** X17: the list [recommend_candidates] returns is in descending order of
    the overall score, for every job description, pool and [top_k]. *)
Theorem ranking_is_descending (jd : job_description)
    (pool : list candidate) (top_k : Z) :
  StronglySorted ranked_before (recommend_candidates jd pool top_k).
Proof.
  destruct (recommend_candidates_eq jd pool top_k)
    as [-> | (rs & re & Heq)]; [constructor|].
  rewrite Heq. unfold slice_to.
  destruct (top_k <? 0)%Z; apply firstn_sorted, sort_desc_sorted.
Qed.

(** X18: when [top_k] covers the pool, [recommend_candidates] returns either
    nothing or a rearrangement of the entries of the candidates that
    did not raise, and among entries of equal overall score the order
    of the pool is kept. *)
Theorem ties_keep_pool_order (jd : job_description) (pool : list candidate)
    (top_k : Z) :
  (Z.of_nat (List.length pool) <= top_k)%Z ->
  recommend_candidates jd pool top_k = [] \/
  exists (required_skills : list pyval) (required_experience : string),
    Permutation (recommend_candidates jd pool top_k)
      (successes required_skills required_experience pool) /\
    forall q : Q,
      with_score q (recommend_candidates jd pool top_k) =
      with_score q (successes required_skills required_experience pool).
Proof.
  intros Hk.
  destruct (recommend_candidates_eq jd pool top_k)
    as [Hnil | (rs & re & Heq)]; [left; exact Hnil|].
  right. exists rs, re. rewrite Heq.
  rewrite slice_to_all.
  - split; [apply sort_desc_perm | intros q; apply with_score_sort].
  - rewrite sort_desc_length.
    pose proof (successes_length rs re pool). lia.
Qed.

Lemma match_skills_raises (vector : gmap string Q)
    (required_skills : list pyval) (skill : pyval) (st : skill_tally) :
  In skill required_skills ->
  (forall name, skill <> PyStr name) ->
  exists e, match_skills vector required_skills st = Raise e.
Proof.
  intros Hin Hnot. revert st.
  induction required_skills as [|head rest IH]; intros st; [destruct Hin|].
  cbn [match_skills].
  destruct head as [|name|n];
    try (exists AttributeError; reflexivity).
  cbn [normalize_skill py_lower bind].
  destruct Hin as [Heq|Hin]; [exfalso; exact (Hnot name (eq_sym Heq))|].
  destruct (vector !! replace_space (lower name)); apply IH; exact Hin.
Qed.

Lemma skill_match_raises (vector : gmap string Q)
    (required_skills : list pyval) (skill : pyval) :
  In skill required_skills ->
  (forall name, skill <> PyStr name) ->
  exists e, calculate_skill_match_score vector required_skills = Raise e.
Proof.
  intros Hin Hnot. unfold calculate_skill_match_score.
  destruct required_skills as [|head rest]; [destruct Hin|].
  destruct (match_skills_raises vector (head :: rest) skill
              {| matched_skills := []; missing_skills := [];
                 skill_scores := [] |} Hin Hnot) as [e He].
  rewrite He. exists e. reflexivity.
Qed.

(** X19: a skill of the parsed requirements that is not a string makes the
    skill match raise for every candidate, and [recommend_candidates]
    returns the empty list whatever the pool is. *)
Theorem null_skill_empties_ranking (jd : job_description) (parsed : parsed_jd)
    (skill : pyval) (pool : list candidate) (top_k : Z) :
  parsed_requirements jd = Some parsed ->
  In skill (concat (map snd (get_or (jd_skills parsed) []))) ->
  (forall name, skill <> PyStr name) ->
  recommend_candidates jd pool top_k = [].
Proof.
  intros Hparsed Hin Hnot. unfold recommend_candidates.
  rewrite Hparsed. cbn [bind try_except].
  rewrite collect_successes. cbn [app].
  set (rs := concat (map snd (get_or (jd_skills parsed) []))) in *.
  assert (Hnone : forall re, successes rs re pool = []).
  { intros re. unfold successes.
    induction pool as [|c rest IH]; [reflexivity|].
    cbn [flat_map]. rewrite IH.
    unfold score_candidate.
    destruct (extract_candidate_features c) as [f|e]; cbn [bind];
      [|reflexivity].
    destruct (skill_match_raises (get_or (competency_vector f) ∅) rs skill
                Hin Hnot) as [e He].
    rewrite He. reflexivity. }
  rewrite Hnone. unfold slice_to, sort_desc. cbn [fold_right].
  destruct (top_k <? 0)%Z; apply firstn_nil.
Qed.

End SortedRanking.

Lemma ties_keep_pool_order_witness :
  Recommender.recommend_candidates (H := ascii_text)
    (H0 := Recommender.sample_data) Examples.junior_job
    [Recommender.Bare 1; Recommender.Bare 2; Recommender.Bare 3] 3 = [] \/
  exists (required_skills : list pyval) (required_experience : string),
    Permutation
      (Recommender.recommend_candidates (H := ascii_text)
         (H0 := Recommender.sample_data) Examples.junior_job
         [Recommender.Bare 1; Recommender.Bare 2; Recommender.Bare 3] 3)
      (Spec.successes (H := ascii_text) (H0 := Recommender.sample_data)
         required_skills required_experience
         [Recommender.Bare 1; Recommender.Bare 2; Recommender.Bare 3]) /\
    forall q : Q,
      Ranges.with_score q
        (Recommender.recommend_candidates (H := ascii_text)
           (H0 := Recommender.sample_data) Examples.junior_job
           [Recommender.Bare 1; Recommender.Bare 2; Recommender.Bare 3] 3) =
      Ranges.with_score q
        (Spec.successes (H := ascii_text) (H0 := Recommender.sample_data)
           required_skills required_experience
           [Recommender.Bare 1; Recommender.Bare 2; Recommender.Bare 3]).
Proof.
  apply (ties_keep_pool_order (H := ascii_text)
           (H0 := Recommender.sample_data)).
  vm_compute. discriminate.
Defined.

Lemma null_skill_empties_ranking_witness :
  Recommender.recommend_candidates (H := ascii_text)
    (H0 := Recommender.sample_data) MoreExamples.null_skill_job
    [Recommender.Bare 1; Recommender.Bare 2] 10 = [].
Proof.
  apply (null_skill_empties_ranking (H := ascii_text)
           (H0 := Recommender.sample_data) MoreExamples.null_skill_job
           {| Recommender.jd_skills :=
                Some [("technical", [PyStr "python"; PyNone])];
              Recommender.jd_experience_level := None |}
           PyNone).
  - reflexivity.
  - cbn. right. left. reflexivity.
  - intros name. discriminate.
Defined.

Section CandidateEngagement.

Import LeadFeatures CandidateFeatures.
Local Open Scope Q_scope.




End CandidateEngagement.

Section Strengths.

Import Recommender Spec Ranges.
Local Open Scope Q_scope.

Lemma strong_level_score (score : Q) :
  (String.eqb (_get_proficiency_level score) "expert" ||
   String.eqb (_get_proficiency_level score) "advanced") =
  Qle_bool 80 score.
Proof.
  unfold _get_proficiency_level.
  destruct (Qle_bool 90 score) eqn:E90.
  - apply Qle_bool_iff in E90.
    assert (H80 : Qle_bool 80 score = true) by (apply Qle_bool_iff; lra).
    rewrite H80. reflexivity.
  - destruct (Qle_bool 80 score); [reflexivity|].
    destruct (Qle_bool 70 score); [reflexivity|].
    destruct (Qle_bool 60 score); reflexivity.
Qed.

Context `{PyText}.

Lemma matched_entries_strong (vector : gmap string Q)
    (required : list string) :
  List.filter (fun m => Qle_bool 80 (ms_score m))
    (matched_entries vector required) =
  List.filter strong_level (matched_entries vector required).
Proof.
  unfold matched_entries.
  induction required as [|skill rest IH]; [reflexivity|].
  cbn [omap list_omap].
  destruct (vector !! normalized skill) as [score|]; [|exact IH].
  cbn [List.filter]. unfold strong_level at 1.
  cbn [ms_score ms_proficiency].
  rewrite strong_level_score, IH. reflexivity.
Qed.

Context {candidate : Type} `{CandidateData candidate}.

(** X21: the strengths of a recommendation are the matched skills whose
    proficiency level is expert or advanced, in the order of the
    requirements. *)
Theorem strengths_are_strong_levels (required_skills : list pyval)
    (required_experience : string) (c : candidate) (r : recommendation) :
  score_candidate required_skills required_experience c = Ok r ->
  strengths r =
  map ms_skill
    (List.filter strong_level (sm_matched_skills (rec_skill_match r))).
Proof.
  unfold score_candidate. intros Hok.
  destruct (extract_candidate_features c) as [f|e]; [|discriminate Hok].
  cbn [bind] in Hok.
  destruct (calculate_skill_match_score _ required_skills) as [sm|e]
    eqn:Esm; [|discriminate Hok].
  cbn [bind] in Hok. injection Hok as <-.
  cbn [strengths rec_skill_match]. f_equal.
  destruct (skill_match_ok_strings _ _ _ Esm) as [names ->].
  destruct names as [|skill rest].
  - cbn in Esm. injection Esm as <-. reflexivity.
  - destruct (skill_match_strings_record
                (get_or (competency_vector f) ∅) skill rest)
      as (rate & avg & Heq).
    rewrite Heq in Esm. injection Esm as <-.
    exact (matched_entries_strong (get_or (competency_vector f) ∅)
             (skill :: rest)).
Qed.

End Strengths.

Lemma strengths_are_strong_levels_witness :
  exists r : Recommender.recommendation,
    Recommender.score_candidate (H := ascii_text)
      (H0 := Recommender.sample_data) (map PyStr Examples.python_sql)
      "junior" (Recommender.Bare 1) = Ok r /\
    Recommender.strengths r =
    map Recommender.ms_skill
      (List.filter Ranges.strong_level
         (Recommender.sm_matched_skills (Recommender.rec_skill_match r))).
Proof.
  eexists. split; [vm_compute; reflexivity|].
  apply (strengths_are_strong_levels (H := ascii_text)
           (H0 := Recommender.sample_data) (map PyStr Examples.python_sql)
           "junior" (Recommender.Bare 1)).
  vm_compute. reflexivity.
Defined.
